(** * documentstore.domain: versioned manifests of documents and bundles

    A shallow embedding of [documentstore/domain.py].  The manifest of a
    document, whose keys are fixed, is a record; the manifest of a bundle,
    to which [set_component] and [remove_component] add and remove keys by
    name, is a [gmap] from keys to values.  An exception is the [Raise]
    branch of a [result], and a method of an aggregate returns its result
    together with the aggregate as the call leaves it.  The [now] callable
    is a [clock]: the readings that successive calls return during one
    operation.  A string is held as its UTF-8 encoding, whose order, byte
    by byte, is the order Python compares strings in, character by
    character. *)

From Stdlib Require Import ZArith Ascii Sorted.
From stdpp Require Import base option list gmap strings fin_maps.

Local Open Scope string_scope.
Local Open Scope list_scope.
Local Open Scope Z_scope.

(** ** Exceptions and results *)

(** The exception classes the domain layer raises or lets through.  The
    message of an exception is not part of the model. *)
Inductive exn : Set :=
| ValueError
| KeyError
| IndexError
| TypeError
| AttributeError
| VersionAlreadySet
| AlreadyExists
| DoesNotExist
| RetryableError
| NonRetryableError
| AssertionError
| OverflowError.

Inductive result (A : Type) : Type :=
| Ok (a : A)
| Raise (e : exn).

Arguments Ok {A} a.
Arguments Raise {A} e.

#[global] Instance exn_eq_dec : EqDecision exn.
Proof. solve_decision. Defined.

#[global] Instance result_ret : MRet result := fun A a => Ok a.

#[global] Instance result_bind : MBind result := fun A B f m =>
  match m with
  | Ok a => f a
  | Raise e => Raise e
  end.

(** ** Time *)

(** [now n] is what the [n]-th call of the [now] callable returns during
    the operation at hand ([utcnow] by default in the source). *)
Definition clock : Type := nat -> string.

(** ** Python sequences *)

(** Normalisation of a subscript: a negative index counts from the end. *)
Definition norm_index (n : nat) (i : Z) : Z :=
  if i <? 0 then i + Z.of_nat n else i.

(** [l[i]]: [IndexError] outside [-len(l) .. len(l) - 1]. *)
Definition py_index {A} (l : list A) (i : Z) : result A :=
  let j := norm_index (length l) i in
  if (j <? 0) || (Z.of_nat (length l) <=? j) then Raise IndexError
  else match l !! Z.to_nat j with
       | Some x => Ok x
       | None => Raise IndexError
       end.

(** [l[i] = x]. *)
Definition py_setitem {A} (l : list A) (i : Z) (x : A) : result (list A) :=
  let j := norm_index (length l) i in
  if (j <? 0) || (Z.of_nat (length l) <=? j) then Raise IndexError
  else Ok (<[Z.to_nat j := x]> l).

(** The bounds of the C type [ssize_t] of a 64-bit build, which
    [list.insert] converts its index to. *)
Definition ssize_t_min : Z := - 2 ^ 63.

Definition ssize_t_max : Z := 2 ^ 63 - 1.

(** The position [list.insert(index, _)] inserts at.  An index that does
    not fit [ssize_t] is an [OverflowError].  Of one that fits, a
    negative index counts from the end, and what is still out of range
    is moved to the nearest end of the list. *)
Definition insert_position (n : nat) (index : Z) : result nat :=
  if (index <? ssize_t_min) || (ssize_t_max <? index) then Raise OverflowError
  else
    let w := norm_index n index in
    let w := if w <? 0 then 0 else w in
    let w := if Z.of_nat n <? w then Z.of_nat n else w in
    Ok (Z.to_nat w).

(** [l.insert(index, x)]. *)
Definition py_insert {A} (l : list A) (index : Z) (x : A) : result (list A) :=
  k ← insert_position (length l) index;
  Ok (take k l ++ x :: drop k l).

(** [itertools.takewhile]. *)
Fixpoint takewhile {A} (p : A -> bool) (l : list A) : list A :=
  match l with
  | [] => []
  | x :: l' => if p x then x :: takewhile p l' else []
  end.

(** [max(iterable, key=key)] over strings: the running maximum is replaced
    only by an item whose key is strictly greater, so of several maximal
    items the first one met is returned; [ValueError] on an empty
    iterable. *)
Definition max_step {A} (key : A -> string) (best y : A) : A :=
  if String.ltb (key best) (key y) then y else best.

Definition py_max {A} (key : A -> string) (l : list A) : result A :=
  match l with
  | [] => Raise ValueError
  | x :: l' => Ok (foldl (max_step key) x l')
  end.

(** ** Values stored in a bundle manifest *)

#[local] Set Warnings "-register-all".

(** What [json] can hold, which is what a manifest is persisted as: strings,
    sequences (lists and tuples alike) and string-keyed dictionaries. *)
Inductive value : Type :=
| VStr (s : string)
| VList (l : list value)
| VDict (d : gmap string value).

(** [item == v] for a string [item]: only a string equals a string. *)
Definition str_eqb (item : string) (v : value) : bool :=
  match v with
  | VStr s => String.eqb item s
  | _ => false
  end.

(** [item in c] for a string [item]: membership in a sequence, substring
    of a string, key of a dictionary. *)
Definition str_in (item : string) (c : value) : bool :=
  match c with
  | VList l => existsb (str_eqb item) l
  | VStr s => bool_decide (is_Some (String.index 0 item s))
  | VDict d => bool_decide (is_Some (d !! item))
  end.

(** [l.remove(item)]: drops the first element equal to [item].  It is
    called behind the test that [item] is in [l]. *)
Fixpoint py_remove (item : string) (l : list value) : list value :=
  match l with
  | [] => []
  | v :: l' => if str_eqb item v then l' else v :: py_remove item l'
  end.

(** [c.append(x)]: only a list has the method. *)
Definition py_append (c : value) (x : value) : result value :=
  match c with
  | VList l => Ok (VList (l ++ [x]))
  | _ => Raise AttributeError
  end.

(** A byte that continues a character in UTF-8: [10xxxxxx]. *)
Definition is_continuation (c : ascii) : bool :=
  let n := Ascii.N_of_ascii c in
  (128 <=? n)%N && (n <? 192)%N.

(** The characters of a string, which is held as its UTF-8 encoding: each
    is a leading byte with the continuation bytes behind it. *)
Fixpoint characters (s : string) : list string :=
  match s with
  | EmptyString => []
  | String c s' =>
      match characters s' with
      | String c' ch :: chs =>
          if is_continuation c' then String c (String c' ch) :: chs
          else String c EmptyString :: String c' ch :: chs
      | chs => String c EmptyString :: chs
      end
  end.

(** [c[i]] for an integer [i]: an element of a sequence, a character of
    a string; a dictionary, whose keys are strings, has no such key. *)
Definition py_getitem (c : value) (i : Z) : result value :=
  match c with
  | VList l => py_index l i
  | VStr s =>
      match py_index (characters s) i with
      | Ok ch => Ok (VStr ch)
      | Raise e => Raise e
      end
  | VDict _ => Raise KeyError
  end.

(** The eight subject areas a journal may declare. *)
Definition SUBJECT_AREAS : list string :=
  [ "AGRICULTURAL SCIENCES";
    "APPLIED SOCIAL SCIENCES";
    "BIOLOGICAL SCIENCES";
    "ENGINEERING";
    "EXACT AND EARTH SCIENCES";
    "HEALTH SCIENCES";
    "HUMAN SCIENCES";
    "LINGUISTIC, LITERATURE AND ARTS" ].

(** ** BundleManifest: functions over the manifest of a bundle *)

(** A bundle manifest is a dictionary: the keys ["id"], ["created"],
    ["updated"], ["items"] and ["metadata"] that [new] writes, and any key
    that [set_component] adds. *)
Abbreviation bundle_manifest := (gmap string value).

Module BundleManifest.

Definition new (bundle_id : string) (now : clock) : bundle_manifest :=
  let timestamp := now 0%nat in
  <["id" := VStr bundle_id]>
    (<["created" := VStr timestamp]>
       (<["updated" := VStr timestamp]>
          (<["items" := VList []]>
             (<["metadata" := VDict ∅]> ∅)))).

(** [now()] is read before the metadata is looked at; [setdefault] needs
    a dictionary, [append] a list. *)
Definition set_metadata (bundle : bundle_manifest) (name : string) (v : value)
    (now : clock) : result bundle_manifest :=
  let _now := now 0%nat in
  match bundle !! "metadata" with
  | None => Raise KeyError
  | Some (VDict md) =>
      metadata ← py_append (default (VList []) (md !! name)) (VList [VStr _now; v]);
      Ok (<["updated" := VStr _now]>
            (<["metadata" := VDict (<[name := metadata]> md)]> bundle))
  | Some _ => Raise AttributeError
  end.

(** [bundle["metadata"].get(name, [])]. *)
Definition get_metadata_all (bundle : bundle_manifest) (name : string)
    : result value :=
  match bundle !! "metadata" with
  | None => Raise KeyError
  | Some (VDict md) =>
      Ok (match md !! name with
          | Some history => history
          | None => VList []
          end)
  | Some _ => Raise AttributeError
  end.

(** The value of the last entry of the history, [default] on the
    [IndexError] of either subscript. *)
Definition get_metadata (bundle : bundle_manifest) (name : string)
    (default : value) : result value :=
  history ← get_metadata_all bundle name;
  match entry ← py_getitem history (-1); py_getitem entry 1 with
  | Raise IndexError => Ok default
  | r => r
  end.

Definition add_item (bundle : bundle_manifest) (item : string) (now : clock)
    : result bundle_manifest :=
  match bundle !! "items" with
  | None => Raise KeyError
  | Some items =>
      if str_in item items then Raise AlreadyExists
      else
        items' ← py_append items (VStr item);
        Ok (<["updated" := VStr (now 0%nat)]> (<["items" := items']> bundle))
  end.

Definition insert_item (items_bundle : bundle_manifest) (index : Z) (item : string)
    (now : clock) : result bundle_manifest :=
  match items_bundle !! "items" with
  | None => Raise KeyError
  | Some items =>
      if str_in item items then Raise AlreadyExists
      else
        match items with
        | VList l =>
            l' ← py_insert l index (VStr item);
            Ok (<["updated" := VStr (now 0%nat)]>
                  (<["items" := VList l']> items_bundle))
        | _ => Raise AttributeError
        end
  end.

Definition remove_item (items_bundle : bundle_manifest) (item : string) (now : clock)
    : result bundle_manifest :=
  match items_bundle !! "items" with
  | None => Raise KeyError
  | Some items =>
      if negb (str_in item items) then Raise DoesNotExist
      else
        match items with
        | VList l =>
            Ok (<["updated" := VStr (now 0%nat)]>
                  (<["items" := VList (py_remove item l)]> items_bundle))
        | _ => Raise AttributeError
        end
  end.

Definition set_component (components_bundle : bundle_manifest) (name : string)
    (v : value) (now : clock) : bundle_manifest :=
  <["updated" := VStr (now 0%nat)]> (<[name := v]> components_bundle).

Definition get_component (components_bundle : bundle_manifest) (name : string)
    (default : value) : value :=
  match components_bundle !! name with
  | Some v => v
  | None => default
  end.

(** No clock is passed and none is read. *)
Definition remove_component (components_bundle : bundle_manifest) (name : string)
    : result bundle_manifest :=
  match components_bundle !! name with
  | None => Raise DoesNotExist
  | Some _ => Ok (delete name components_bundle)
  end.

End BundleManifest.

(** An aggregate method: the value it returns or the exception it raises,
    and the aggregate afterwards. *)
Definition method (S A : Type) : Type := result A * S.

(** What [any] and [or] take for true of an argument of a constructor:
    neither [None] nor the empty string, neither [None] nor the empty
    dictionary. *)
Definition truthy_str (id : option string) : bool :=
  match id with
  | Some s => negb (String.eqb s "")
  | None => false
  end.

Definition truthy_dict (manifest : option bundle_manifest) : bool :=
  match manifest with
  | Some m => negb (bool_decide (m = ∅))
  | None => false
  end.

(** [str(id)]. *)
Definition py_str (id : option string) : string :=
  match id with
  | Some s => s
  | None => "None"
  end.

(** ** DocumentsBundle *)

Module DocumentsBundle.

Record t : Type := mk { _manifest : bundle_manifest }.

(** [__init__]: [assert any([id, manifest])], then
    [manifest or BundleManifest.new(id)]. *)
Definition init (id : option string) (manifest : option bundle_manifest)
    (now : clock) : result t :=
  if negb (truthy_str id || truthy_dict manifest) then Raise AssertionError
  else
    Ok (mk (match manifest with
            | Some m =>
                if bool_decide (m = ∅) then BundleManifest.new (py_str id) now
                else m
            | None => BundleManifest.new (py_str id) now
            end)).

(** [self.manifest = r]: nothing is assigned when [r] raises. *)
Definition assign (self : t) (r : result bundle_manifest) : method t unit :=
  match r with
  | Ok m => (Ok (), mk m)
  | Raise e => (Raise e, self)
  end.

Definition add_document (self : t) (document : string) (now : clock)
    : method t unit :=
  assign self (BundleManifest.add_item (_manifest self) document now).

Definition insert_document (self : t) (index : Z) (document : string)
    (now : clock) : method t unit :=
  assign self (BundleManifest.insert_item (_manifest self) index document now).

Definition remove_document (self : t) (document : string) (now : clock)
    : method t unit :=
  assign self (BundleManifest.remove_item (_manifest self) document now).

Definition documents (self : t) : result value :=
  match _manifest self !! "items" with
  | Some items => Ok items
  | None => Raise KeyError
  end.

End DocumentsBundle.

(** ** Journal *)

Module Journal.

Record t : Type := mk { _manifest : bundle_manifest }.

(** [__init__]: [assert any([id, manifest])], then
    [manifest or BundleManifest.new(id)]. *)
Definition init (id : option string) (manifest : option bundle_manifest)
    (now : clock) : result t :=
  if negb (truthy_str id || truthy_dict manifest) then Raise AssertionError
  else
    Ok (mk (match manifest with
            | Some m =>
                if bool_decide (m = ∅) then BundleManifest.new (py_str id) now
                else m
            | None => BundleManifest.new (py_str id) now
            end)).

Definition assign (self : t) (r : result bundle_manifest) : method t unit :=
  match r with
  | Ok m => (Ok (), mk m)
  | Raise e => (Raise e, self)
  end.

Definition updated (self : t) : value :=
  default (VStr "") (_manifest self !! "updated").

(** The setter of [subject_areas], on what [tuple(value)] gives for a
    sequence of strings. *)
Definition set_subject_areas (self : t) (v : list string) (now : clock)
    : method t unit :=
  let invalid := filter (fun item => item ∉ SUBJECT_AREAS) v in
  match invalid with
  | _ :: _ => (Raise ValueError, self)
  | [] =>
      assign self
        (BundleManifest.set_metadata (_manifest self) "subject_areas"
           (VList (VStr <$> v)) now)
  end.

Definition subject_areas (self : t) : result value :=
  BundleManifest.get_metadata (_manifest self) "subject_areas" (VStr "").

(** The setter of [title], on a string, which [str] leaves as it is. *)
Definition set_title (self : t) (v : string) (now : clock) : method t unit :=
  assign self (BundleManifest.set_metadata (_manifest self) "title" (VStr v) now).

Definition title (self : t) : result value :=
  BundleManifest.get_metadata (_manifest self) "title" (VStr "").

(** The setter of [status], on a dictionary, which [dict] copies. *)
Definition set_status (self : t) (v : gmap string value) (now : clock)
    : method t unit :=
  assign self (BundleManifest.set_metadata (_manifest self) "status" (VDict v) now).

Definition status (self : t) : result value :=
  BundleManifest.get_metadata (_manifest self) "status" (VStr "").

Definition status_history (self : t) : result value :=
  BundleManifest.get_metadata_all (_manifest self) "status".

Definition ahead_of_print_bundle (self : t) : value :=
  BundleManifest.get_component (_manifest self) "aop" (VStr "").

(** [value[-1][-1]] of a history, when no subscript raises. *)
Definition latest_value (history : value) : option value :=
  match entry ← py_getitem history (-1); py_getitem entry (-1) with
  | Ok v => Some v
  | Raise _ => None
  end.

(** [data()]: the manifest, with each history of the metadata replaced
    by the value of its last entry.  [None] stands for an exception:
    which one is raised when several histories are ill-formed depends on
    the order of the dictionary, which the map does not keep. *)
Definition data (self : t) : option bundle_manifest :=
  match _manifest self !! "metadata" with
  | Some (VDict md) =>
      if bool_decide (map_Forall (fun _ history => is_Some (latest_value history)) md)
      then Some (<["metadata" := VDict (omap latest_value md)]> (_manifest self))
      else None
  | _ => None
  end.

Definition add_issue (self : t) (issue : string) (now : clock)
    : method t unit :=
  assign self (BundleManifest.add_item (_manifest self) issue now).

Definition insert_issue (self : t) (index : Z) (issue : string) (now : clock)
    : method t unit :=
  assign self (BundleManifest.insert_item (_manifest self) index issue now).

Definition remove_issue (self : t) (issue : string) (now : clock)
    : method t unit :=
  assign self (BundleManifest.remove_item (_manifest self) issue now).

Definition issues (self : t) : result value :=
  match _manifest self !! "items" with
  | Some items => Ok items
  | None => Raise KeyError
  end.

Definition set_ahead_of_print_bundle (self : t) (v : string) (now : clock)
    : method t unit :=
  assign self (Ok (BundleManifest.set_component (_manifest self) "aop" (VStr v) now)).

Definition remove_ahead_of_print_bundle (self : t) : method t unit :=
  assign self (BundleManifest.remove_component (_manifest self) "aop").

End Journal.

(** ** DocumentManifest: functions over the manifest of a document *)

(** A dictionary that is iterated in insertion order: the [assets] argument
    of [add_version] when it maps asset ids to URIs. *)
Definition odict : Type := list (string * string).

Definition odict_get (d : odict) (k : string) : option string :=
  snd <$> List.find (fun kv => String.eqb k (fst kv)) d.

(** [d[k] = v]: a key already there keeps its place. *)
Fixpoint odict_set (d : odict) (k v : string) : odict :=
  match d with
  | [] => [(k, v)]
  | (k', v') :: d' =>
      if String.eqb k k' then (k', v) :: d' else (k', v') :: odict_set d' k v
  end.

(** [{k: f(k) for k in keys}]. *)
Definition odict_of_keys (f : string -> string) (keys : list string) : odict :=
  foldl (fun d k => odict_set d k (f k)) [] keys.

(** The two shapes [add_version] takes its [assets] in. *)
Inductive asset_refs : Type :=
| AssetList (ids : list string)
| AssetDict (d : odict).

Definition asset_ids (assets : asset_refs) : list string :=
  match assets with
  | AssetList ids => ids
  | AssetDict d => fst <$> d
  end.

Module DocumentManifest.

(** A version, with what each asset id maps to left open: its timeline of
    [(timestamp, uri)] pairs in a manifest, one URI once resolved. *)
Record version_of (U : Type) : Type := mk_version
  { data : string; assets : gmap string U; timestamp : string }.

Arguments mk_version {U} _ _ _.
Arguments data {U} _.
Arguments assets {U} _.
Arguments timestamp {U} _.

Abbreviation timeline := (list (string * string)).
Abbreviation document_version := (version_of timeline).

Record document_manifest : Type := mk { id : string; versions : list document_version }.

Definition new (id : string) : document_manifest := mk id [].

Definition _new_version (data_uri : string) (assets : asset_refs)
    (now : clock) : document_version :=
  let _assets := foldl (fun m aid => <[aid := []]> m) ∅ (asset_ids assets) in
  mk_version data_uri _assets (now 0%nat).

(** [now n] is the reading the entry is stamped with. *)
Definition _new_asset_version (version : document_version) (asset_id asset_uri : string)
    (now : clock) (n : nat) : result document_version :=
  match assets version !! asset_id with
  | None => Raise KeyError
  | Some uris =>
      Ok (mk_version (data version)
            (<[asset_id := uris ++ [(now n, asset_uri)]]> (assets version))
            (timestamp version))
  end.

(** The loop of [add_version] over a mapping: [n] counts the readings of
    the clock made so far. *)
Fixpoint bind_assets (d : odict) (ids : list string) (now : clock) (n : nat)
    (version : document_version) : result document_version :=
  match ids with
  | [] => Ok version
  | asset_id :: ids' =>
      match odict_get d asset_id with
      | None => Raise KeyError
      | Some asset_uri =>
          if String.eqb asset_uri "" then bind_assets d ids' now n version
          else
            version' ← _new_asset_version version asset_id asset_uri now n;
            bind_assets d ids' now (S n) version'
      end
  end.

(** Subscripting a list of ids by an id is a [TypeError], on which the
    loop is left at once: a list binds nothing. *)
Definition add_version (manifest : document_manifest) (data_uri : string) (assets : asset_refs)
    (now : clock) : result document_manifest :=
  let version := _new_version data_uri assets now in
  version' ← match assets with
             | AssetList _ => Ok version
             | AssetDict d => bind_assets d (fst <$> d) now 1%nat version
             end;
  Ok (mk (id manifest) (versions manifest ++ [version'])).

Definition add_asset_version (manifest : document_manifest) (asset_id asset_uri : string)
    (now : clock) : result document_manifest :=
  latest ← py_index (versions manifest) (-1);
  version' ← _new_asset_version latest asset_id asset_uri now 0%nat;
  versions' ← py_setitem (versions manifest) (-1) version';
  Ok (mk (id manifest) versions').

End DocumentManifest.

(** ** Timestamps of time-travel queries *)

Definition is_digit (c : ascii) : bool :=
  let n := Ascii.N_of_ascii c in
  (48 <=? n)%N && (n <=? 57)%N.

(** [[0-9]{n}] at the head of [s]: what is left of [s] behind it. *)
Fixpoint digits (n : nat) (s : string) : option string :=
  match n, s with
  | O, _ => Some s
  | S n', String c s' => if is_digit c then digits n' s' else None
  | S _, EmptyString => None
  end.

(** One literal character at the head of [s]. *)
Definition lit (c : ascii) (s : string) : option string :=
  match s with
  | String c' s' => if Ascii.eqb c c' then Some s' else None
  | EmptyString => None
  end.

(** [$] without [re.MULTILINE]: the end of the string, or the line feed
    that ends it. *)
Definition at_end (s : string) : bool :=
  match s with
  | EmptyString => true
  | String c EmptyString => Ascii.eqb c "010"%char
  | _ => false
  end.

(** [[0-9]{4}-[0-9]{2}-[0-9]{2}] at the head of [s]. *)
Definition date_prefix (s : string) : option string :=
  s ← digits 4 s; s ← lit "-" s; s ← digits 2 s; s ← lit "-" s; digits 2 s.

(** [T[0-9]{2}:[0-9]{2}] at the head of [s]. *)
Definition time_prefix (s : string) : option string :=
  s ← lit "T" s; s ← digits 2 s; s ← lit ":" s; digits 2 s.

(** [re.match] of [Document._timestamp_pattern],
    [^[0-9]{4}-[0-9]{2}-[0-9]{2}(T[0-9]{2}:[0-9]{2}(:[0-9]{2})?Z)?$]:
    each optional group is tried present and absent. *)
Definition match_timestamp_pattern (s : string) : bool :=
  match date_prefix s with
  | None => false
  | Some rest =>
      at_end rest
      || match time_prefix rest with
         | None => false
         | Some rest' =>
             from_option at_end false (s ← lit ":" rest'; s ← digits 2 s; lit "Z" s)
             || from_option at_end false (lit "Z" rest')
         end
  end.

(** [re.match] of the pattern of a bare date, [^\d{4}-\d{2}-\d{2}$].  It
    is tried only on what [_timestamp_pattern] has accepted, where the
    digits are ASCII digits. *)
Definition match_date_pattern (s : string) : bool :=
  from_option at_end false (date_prefix s).

(** ** Document *)

Module Document.
Import DocumentManifest.

Record t : Type := mk { _manifest : document_manifest }.

(** [__init__]: [assert any([id, manifest])], then
    [manifest or DocumentManifest.new(id)].  A manifest that is given has
    its keys: it is not the empty dictionary. *)
Definition init (id : option string) (manifest : option document_manifest)
    : result t :=
  if negb (truthy_str id || bool_decide (is_Some manifest)) then Raise AssertionError
  else
    Ok (mk (match manifest with
            | Some m => m
            | None => DocumentManifest.new (py_str id)
            end)).

Definition assign (self : t) (r : result document_manifest) : method t unit :=
  match r with
  | Ok m => (Ok (), mk m)
  | Raise e => (Raise e, self)
  end.

(** [uris[-1][1]], or the empty string on [IndexError], the one exception
    [py_index] raises. *)
Definition _latest (uris : timeline) : string :=
  match py_index uris (-1) with
  | Ok entry => snd entry
  | Raise _ => ""
  end.

Definition version (self : t) (index : Z) : result (version_of string) :=
  match py_index (versions (_manifest self)) index with
  | Raise IndexError => Raise ValueError
  | Raise e => Raise e
  | Ok version =>
      Ok (mk_version (data version) (_latest <$> assets version) (timestamp version))
  end.

(** The version a time-travel query selects; [py_max] raises
    [ValueError] on an empty iterable, which is raised anew. *)
Definition target_version (versions : list document_version)
    (timestamp : string) : result document_version :=
  py_max DocumentManifest.timestamp
    (takewhile (fun version => String.leb (DocumentManifest.timestamp version) timestamp)
       versions).

(** The URI a timeline held at [timestamp], or the empty string on the
    [ValueError] of [py_max], the one exception it raises. *)
Definition _at_time (timestamp : string) (uris : timeline) : string :=
  match py_max fst (takewhile (fun asset => String.leb (fst asset) timestamp) uris) with
  | Ok target => snd target
  | Raise _ => ""
  end.

Definition version_at (self : t) (timestamp : string)
    : result (version_of string) :=
  if negb (match_timestamp_pattern timestamp) then Raise ValueError
  else
    let timestamp :=
      if match_date_pattern timestamp then timestamp +:+ "T23:59:59.999999Z"
      else timestamp in
    target_version ← target_version (versions (_manifest self)) timestamp;
    Ok (mk_version (data target_version)
          (_at_time timestamp <$> assets target_version)
          (DocumentManifest.timestamp target_version)).

(** The assets of the latest version, or of [{"assets": {}}] when there
    is none. *)
Definition latest_assets (self : t) : result (gmap string string) :=
  match version self (-1) with
  | Ok latest_version => Ok (assets latest_version)
  | Raise ValueError => Ok ∅
  | Raise e => Raise e
  end.

Definition _link_assets (self : t) (tolink : list string) : result odict :=
  latest ← latest_assets self;
  Ok (odict_of_keys (fun asset_key => default "" (latest !! asset_key)) tolink).

(** [assets_getter] is given as the asset ids it finds at a URL, in the
    order of the document, or the exception it raises; the parsed tree
    and the timeout it is called with are not used here. *)
Definition new_version (self : t) (data_url : string)
    (assets_getter : string -> result (list string)) (now : clock)
    : method t unit :=
  assign self
    (latest_data ← match version self (-1) with
                   | Ok latest_version => Ok (data latest_version)
                   | Raise ValueError => Ok ""
                   | Raise e => Raise e
                   end;
     if String.eqb latest_data data_url then Raise VersionAlreadySet
     else
       data_assets_keys ← assets_getter data_url;
       assets ← _link_assets self data_assets_keys;
       add_version (_manifest self) data_url (AssetDict assets) now).

Definition new_asset_version (self : t) (asset_id data_url : string)
    (now : clock) : method t unit :=
  assign self
    (latest ← latest_assets self;
     if bool_decide (latest !! asset_id = Some data_url)
     then Raise VersionAlreadySet
     else
       match add_asset_version (_manifest self) asset_id data_url now with
       | Raise KeyError => Raise ValueError
       | r => r
       end).

End Document.

(** ** Vocabulary of the properties *)

(** [e] is the first item of [l] whose key is greatest: what stands before
    it is strictly smaller, what stands behind it is not greater. *)
Definition first_max_of {A} (key : A -> string) (l : list A) (e : A) : Prop :=
  exists l1 l2,
    l = l1 ++ e :: l2
    /\ Forall (fun x => String.ltb (key x) (key e) = true) l1
    /\ Forall (fun x => String.leb (key x) (key e) = true) l2.





(** The vocabulary of subject areas as the specification lists it. *)
Definition SUBJECT_AREAS_spec : list string :=
  [ "AGRICULTURAL SCIENCES";
    "APPLIED SOCIAL SCIENCES";
    "BIOLOGICAL SCIENCES";
    "ENGINEERING";
    "EXACT AND EARTH SCIENCES";
    "HEALTH SCIENCES";
    "HUMAN SCIENCES";
    "LINGUISTIC LITERATURE AND ARTS" ].

(** A manifest [set_metadata] can write the field [name] of: it has its
    metadata dictionary, and the history of [name], if there is one, is a
    list. *)
Definition metadata_ready (name : string) (b : bundle_manifest) : Prop :=
  exists md,
    b !! "metadata" = Some (VDict md)
    /\ (md !! name = None \/ exists l, md !! name = Some (VList l)).

(** The latest value of the metadata field [name] is [v]. *)
Definition latest_metadata (name : string) (b : bundle_manifest) (v : value)
    : Prop :=
  exists md l ts,
    b !! "metadata" = Some (VDict md)
    /\ md !! name = Some (VList (l ++ [VList [VStr ts; v]])).

(** [v'] is [v] with nothing but entries added at the end of timelines. *)
Definition version_extends (v v' : DocumentManifest.document_version) : Prop :=
  DocumentManifest.data v' = DocumentManifest.data v
  /\ DocumentManifest.timestamp v' = DocumentManifest.timestamp v
  /\ dom (DocumentManifest.assets v') = dom (DocumentManifest.assets v)
  /\ forall a uris,
       DocumentManifest.assets v !! a = Some uris ->
       exists uris',
         DocumentManifest.assets v' !! a = Some uris' /\ uris `prefix_of` uris'.

(** [m'] is [m] with nothing but versions and timeline entries added at
    the end: version by version, in the same order. *)
Definition append_only (m m' : DocumentManifest.document_manifest) : Prop :=
  DocumentManifest.id m' = DocumentManifest.id m
  /\ exists kept added,
       DocumentManifest.versions m' = kept ++ added
       /\ Forall2 version_extends (DocumentManifest.versions m) kept.

(** The items of the bundle are the strings [l], in this order. *)
Definition items_are (b : bundle_manifest) (l : list string) : Prop :=
  b !! "items" = Some (VList (VStr <$> l)).

(** What an operation on the items returns: the items are [l'] and
    ["updated"] is the reading of the clock. *)
Definition with_items (b : bundle_manifest) (now : clock) (l' : list string)
    : bundle_manifest :=
  <["updated" := VStr (now 0%nat)]> (<["items" := VList (VStr <$> l')]> b).

(** A version as [version()] shows it: each timeline replaced by the URI
    of its last entry. *)
Definition latest_view (v : DocumentManifest.document_version)
    : DocumentManifest.version_of string :=
  DocumentManifest.mk_version (DocumentManifest.data v)
    (Document._latest <$> DocumentManifest.assets v)
    (DocumentManifest.timestamp v).

(** Two versions that a query at [T] cannot tell apart. *)
Definition same_at (T : string) (v v' : DocumentManifest.document_version) : Prop :=
  DocumentManifest.data v' = DocumentManifest.data v
  /\ DocumentManifest.timestamp v' = DocumentManifest.timestamp v
  /\ Document._at_time T <$> DocumentManifest.assets v'
     = Document._at_time T <$> DocumentManifest.assets v.

(** The timestamp a query is resolved at: a bare date at the end of its
    day. *)
Definition effective_timestamp (timestamp : string) : string :=
  if match_date_pattern timestamp then timestamp +:+ "T23:59:59.999999Z"
  else timestamp.

(** ** Sample data *)

Definition sample_clock : clock := fun n =>
  match n with
  | 0%nat => "2020-05-02T08:00:00.000000Z"
  | 1%nat => "2020-05-02T08:00:00.000001Z"
  | _ => "2020-05-02T08:00:00.000002Z"
  end.

(** One version, whose asset [fig1] is bound. *)
Definition sample_version : DocumentManifest.document_version :=
  DocumentManifest.mk_version "http://x/v1.xml"
    (<["fig1" := [("2020-05-01T10:00:00.000000Z", "http://x/fig1.png")]]> ∅)
    "2020-05-01T10:00:00.000000Z".

Definition sample_document : Document.t :=
  Document.mk (DocumentManifest.mk "doc" [sample_version]).

(** A getter that finds the asset [fig1] at every URL. *)
Definition sample_getter : string -> result (list string) :=
  fun _ => Ok ["fig1"].

(** A bundle of two documents. *)
Definition sample_bundle : bundle_manifest :=
  <["items" := VList [VStr "d1"; VStr "d2"]]>
    (BundleManifest.new "b1" (fun _ => "2020-05-01T10:00:00.000000Z")).

(** A journal on a manifest as [BundleManifest.new] makes it, then
    linked to the bundle of its articles ahead of print. *)
Definition sample_journal : Journal.t :=
  snd (Journal.set_ahead_of_print_bundle
         (Journal.mk (BundleManifest.new "j1" (fun _ => "2020-05-01T10:00:00.000000Z")))
         "aop-bundle" (fun _ => "2020-05-01T11:00:00.000000Z")).

(** * Properties *)

(** ** The order of timestamps *)

Section string_order.

Lemma ltb_negb_leb (a b : string) : String.ltb a b = negb (String.leb b a).
Proof.
  unfold String.ltb, String.leb.
  rewrite (String.compare_antisym b a).
  destruct (String.compare a b); reflexivity.
Qed.

Lemma leb_refl (a : string) : String.leb a a = true.
Proof. apply Is_true_true. change (String.le a a). reflexivity. Qed.

Lemma leb_trans (a b c : string) :
  String.leb a b = true -> String.leb b c = true -> String.leb a c = true.
Proof.
  intros Hab Hbc. apply Is_true_true.
  change (String.le a c). transitivity b; apply Is_true_true; assumption.
Qed.

Lemma ltb_leb (a b : string) : String.ltb a b = true -> String.leb a b = true.
Proof.
  rewrite ltb_negb_leb. intros H.
  destruct (String.leb_total a b) as [Hab | Hba]; [assumption |].
  rewrite Hba in H. discriminate.
Qed.

Lemma ltb_leb_trans (a b c : string) :
  String.ltb a b = true -> String.leb b c = true -> String.ltb a c = true.
Proof.
  rewrite !ltb_negb_leb. intros Hab Hbc.
  destruct (String.leb c a) eqn:Hca; [| reflexivity].
  rewrite (leb_trans b c a Hbc Hca) in Hab. discriminate.
Qed.

Lemma leb_ltb_trans (a b c : string) :
  String.leb a b = true -> String.ltb b c = true -> String.ltb a c = true.
Proof.
  rewrite !ltb_negb_leb. intros Hab Hbc.
  destruct (String.leb c a) eqn:Hca; [| reflexivity].
  rewrite (leb_trans c a b Hca Hab) in Hbc. discriminate.
Qed.

Lemma not_ltb_leb (a b : string) : String.ltb a b = false -> String.leb b a = true.
Proof. rewrite ltb_negb_leb. destruct (String.leb b a); [reflexivity | discriminate]. Qed.

End string_order.

(** ** Maximum of the leading run *)

Section resolution.

Context {A : Type} (key : A -> string).

Lemma foldl_step_first_max (l : list A) (x : A) :
  first_max_of key (x :: l) (foldl (max_step key) x l).
Proof.
  induction l as [| y l IH] using rev_ind.
  - exists [], []. repeat split; constructor.
  - rewrite foldl_app. simpl.
    destruct IH as (l1 & l2 & Hsplit & Hlt & Hle).
    set (e := foldl (max_step key) x l) in *.
    unfold max_step at 1. destruct (String.ltb (key e) (key y)) eqn:Hey.
    + exists (l1 ++ e :: l2), []. split; [| split].
      * rewrite app_comm_cons, Hsplit. reflexivity.
      * apply Forall_app. split.
        -- eapply Forall_impl; [exact Hlt |].
           intros z Hz. simpl in Hz.
           eapply leb_ltb_trans; [apply ltb_leb; exact Hz | exact Hey].
        -- constructor; [exact Hey |].
           eapply Forall_impl; [exact Hle |].
           intros z Hz. simpl in Hz. eapply leb_ltb_trans; eassumption.
      * constructor.
    + exists l1, (l2 ++ [y]). split; [| split].
      * rewrite app_comm_cons, Hsplit, <- app_assoc. reflexivity.
      * exact Hlt.
      * apply Forall_app. split; [exact Hle |].
        constructor; [apply not_ltb_leb; exact Hey | constructor].
Qed.

Lemma py_max_first_max (l : list A) :
  (l = [] /\ py_max key l = Raise ValueError)
  \/ (exists e, py_max key l = Ok e /\ first_max_of key l e).
Proof.
  destruct l as [| x l]; [left; split; reflexivity | right].
  exists (foldl (max_step key) x l). split; [reflexivity | apply foldl_step_first_max].
Qed.


End resolution.

(** ** Resolution by time *)




(** ** Subscripts *)

Section subscripts.

Context {A : Type}.

Lemma py_index_nil (i : Z) : py_index (@nil A) i = Raise IndexError.
Proof. unfold py_index. destruct (_ || _); reflexivity. Qed.

Lemma py_index_error (l : list A) (i : Z) (e : exn) :
  py_index l i = Raise e -> e = IndexError.
Proof.
  unfold py_index.
  destruct (_ || _); [congruence |].
  destruct (l !! _); congruence.
Qed.

Lemma last_position (l : list A) (x : A) :
  norm_index (length (l ++ [x])) (-1) = Z.of_nat (length l).
Proof. unfold norm_index. rewrite length_app. simpl. lia. Qed.

Lemma py_index_last (l : list A) (x : A) : py_index (l ++ [x]) (-1) = Ok x.
Proof.
  unfold py_index. rewrite last_position, Nat2Z.id.
  assert (Hlen : Z.of_nat (length (l ++ [x])) = Z.of_nat (length l) + 1).
  { rewrite length_app. simpl. lia. }
  rewrite Hlen.
  destruct (Z.of_nat (length l) <? 0) eqn:H1; [apply Z.ltb_lt in H1; lia |].
  destruct (Z.of_nat (length l) + 1 <=? Z.of_nat (length l)) eqn:H2;
    [apply Z.leb_le in H2; lia |].
  simpl. rewrite list_lookup_middle by reflexivity. reflexivity.
Qed.

Lemma py_setitem_last (l : list A) (x y : A) :
  py_setitem (l ++ [x]) (-1) y = Ok (l ++ [y]).
Proof.
  unfold py_setitem. rewrite last_position, Nat2Z.id.
  assert (Hlen : Z.of_nat (length (l ++ [x])) = Z.of_nat (length l) + 1).
  { rewrite length_app. simpl. lia. }
  rewrite Hlen.
  destruct (Z.of_nat (length l) <? 0) eqn:H1; [apply Z.ltb_lt in H1; lia |].
  destruct (Z.of_nat (length l) + 1 <=? Z.of_nat (length l)) eqn:H2;
    [apply Z.leb_le in H2; lia |].
  simpl. f_equal.
  rewrite insert_app_r_alt by lia.
  rewrite Nat.sub_diag. reflexivity.
Qed.

End subscripts.

(** ** The latest version of a document *)

Section latest_version.

Import DocumentManifest.

Variable self : Document.t.

Lemma version_none :
  versions (Document._manifest self) = [] ->
  Document.version self (-1) = Raise ValueError.
Proof.
  intros Hnil. unfold Document.version. rewrite Hnil, py_index_nil. reflexivity.
Qed.

Lemma version_latest (v : document_version) :
  last (versions (Document._manifest self)) = Some v ->
  Document.version self (-1)
  = Ok (mk_version (data v) (Document._latest <$> assets v) (timestamp v)).
Proof.
  intros Hlast. apply last_Some in Hlast as [vs Hvs].
  unfold Document.version. rewrite Hvs, py_index_last. reflexivity.
Qed.

Lemma latest_assets_none :
  versions (Document._manifest self) = [] ->
  Document.latest_assets self = Ok ∅.
Proof.
  intros Hnil. unfold Document.latest_assets. rewrite (version_none Hnil).
  reflexivity.
Qed.

Lemma latest_assets_latest (v : document_version) :
  last (versions (Document._manifest self)) = Some v ->
  Document.latest_assets self = Ok (Document._latest <$> assets v).
Proof.
  intros Hlast. unfold Document.latest_assets. rewrite (version_latest v Hlast).
  reflexivity.
Qed.

End latest_version.

(** ** Guards of the document aggregate *)

Section document_guards.

Import DocumentManifest.

(** C5.  For every document whose latest version has the data URI [u],
    [new_version] with [u] raises [VersionAlreadySet] and leaves the
    manifest as it was; the number of versions is what it was. *)
Theorem new_version_same_data_url (self : Document.t) (v : document_version)
    (u : string) (assets_getter : string -> result (list string))
    (now : clock) :
  last (versions (Document._manifest self)) = Some v ->
  data v = u ->
  Document.new_version self u assets_getter now = (Raise VersionAlreadySet, self)
  /\ length (versions (Document._manifest
                         (snd (Document.new_version self u assets_getter now))))
     = length (versions (Document._manifest self)).
Proof.
  intros Hlast Hu.
  assert (Hcall : Document.new_version self u assets_getter now
                  = (Raise VersionAlreadySet, self)).
  { unfold Document.new_version. rewrite (version_latest self v Hlast).
    simpl. rewrite Hu, String.eqb_refl. reflexivity. }
  split; [exact Hcall |]. rewrite Hcall. reflexivity.
Qed.

(** C8.  For every document that has a version, [new_asset_version] for
    an asset id that is not in the asset set of the latest version raises
    [ValueError] and leaves the manifest as it was. *)
Theorem new_asset_version_unknown_asset (self : Document.t)
    (v : document_version) (asset_id data_url : string) (now : clock) :
  last (versions (Document._manifest self)) = Some v ->
  assets v !! asset_id = None ->
  Document.new_asset_version self asset_id data_url now = (Raise ValueError, self).
Proof.
  intros Hlast Hunknown.
  unfold Document.new_asset_version.
  rewrite (latest_assets_latest self v Hlast). simpl.
  rewrite lookup_fmap, Hunknown. simpl.
  unfold add_asset_version.
  apply last_Some in Hlast as [vs Hvs].
  rewrite Hvs, py_index_last. simpl.
  unfold _new_asset_version. rewrite Hunknown. reflexivity.
Qed.

(** C9.  For every document without a version, [new_asset_version]
    raises [IndexError], which is neither the [ValueError] of an unknown
    asset id nor [VersionAlreadySet]: the comparison with the latest
    binding lets the call through, and the subscript [versions[-1]] fails
    where only [KeyError] is caught.  The manifest is as it was. *)
Theorem new_asset_version_no_version (self : Document.t)
    (asset_id data_url : string) (now : clock) :
  versions (Document._manifest self) = [] ->
  Document.new_asset_version self asset_id data_url now = (Raise IndexError, self)
  /\ IndexError <> ValueError
  /\ IndexError <> VersionAlreadySet.
Proof.
  intros Hnil. split; [| split; discriminate].
  unfold Document.new_asset_version.
  rewrite (latest_assets_none self Hnil). simpl.
  rewrite lookup_empty.
  rewrite bool_decide_eq_false_2 by discriminate.
  unfold add_asset_version. rewrite Hnil, py_index_nil. reflexivity.
Qed.

End document_guards.

Lemma new_version_same_data_url_witness :
  last (DocumentManifest.versions (Document._manifest sample_document))
  = Some sample_version
  /\ Document.new_version sample_document "http://x/v1.xml" sample_getter sample_clock
     = (Raise VersionAlreadySet, sample_document).
Proof.
  split; [reflexivity |].
  apply (new_version_same_data_url sample_document sample_version
           "http://x/v1.xml" sample_getter sample_clock); reflexivity.
Defined.

Lemma new_asset_version_unknown_asset_witness :
  DocumentManifest.assets sample_version !! "fig2" = None
  /\ Document.new_asset_version sample_document "fig2" "http://x/fig2.png" sample_clock
     = (Raise ValueError, sample_document).
Proof.
  split; [reflexivity |].
  apply (new_asset_version_unknown_asset sample_document sample_version);
    reflexivity.
Defined.

Lemma new_asset_version_no_version_witness :
  Document.new_asset_version (Document.mk (DocumentManifest.new "doc")) "fig1" "http://x/fig1.png"
    sample_clock
  = (Raise IndexError, Document.mk (DocumentManifest.new "doc")).
Proof.
  apply (new_asset_version_no_version (Document.mk (DocumentManifest.new "doc"))). reflexivity.
Defined.

(** ** Versions only grow *)

Section version_extends.

Import DocumentManifest.

Lemma version_extends_refl (v : document_version) : version_extends v v.
Proof.
  repeat split. intros a uris Ha. exists uris. split; [exact Ha | reflexivity].
Qed.

Lemma version_extends_trans (v1 v2 v3 : document_version) :
  version_extends v1 v2 -> version_extends v2 v3 -> version_extends v1 v3.
Proof.
  intros (Hd12 & Ht12 & Hk12 & Hu12) (Hd23 & Ht23 & Hk23 & Hu23).
  split; [congruence |]. split; [congruence |]. split; [congruence |].
  intros a uris Ha.
  destruct (Hu12 a uris Ha) as (uris2 & Ha2 & Hp12).
  destruct (Hu23 a uris2 Ha2) as (uris3 & Ha3 & Hp23).
  exists uris3. split; [exact Ha3 | etransitivity; eassumption].
Qed.

Lemma _new_asset_version_ok (v v' : document_version)
    (asset_id asset_uri : string) (now : clock) (n : nat) :
  _new_asset_version v asset_id asset_uri now n = Ok v' ->
  exists uris,
    assets v !! asset_id = Some uris
    /\ v' = mk_version (data v)
              (<[asset_id := uris ++ [(now n, asset_uri)]]> (assets v))
              (timestamp v).
Proof.
  unfold _new_asset_version.
  destruct (assets v !! asset_id) as [uris |]; [| discriminate].
  intros [= <-]. exists uris. split; reflexivity.
Qed.

Lemma _new_asset_version_extends (v v' : document_version)
    (asset_id asset_uri : string) (now : clock) (n : nat) :
  _new_asset_version v asset_id asset_uri now n = Ok v' ->
  version_extends v v'.
Proof.
  intros Hcall.
  apply _new_asset_version_ok in Hcall as (uris & Huris & ->).
  split; [reflexivity |]. split; [reflexivity |]. split.
  - simpl. apply dom_insert_lookup_L. rewrite Huris. eauto.
  - simpl. intros a uris0 Ha.
    destruct (decide (a = asset_id)) as [-> | Hne].
    + rewrite lookup_insert_eq. eexists. split; [reflexivity |].
      rewrite Huris in Ha. injection Ha as <-. apply prefix_app_r. reflexivity.
    + rewrite lookup_insert_ne by congruence. exists uris0.
      split; [exact Ha | reflexivity].
Qed.

Lemma version_extends_keys (v v' : document_version) (k : string) :
  version_extends v v' ->
  is_Some (assets v !! k) -> is_Some (assets v' !! k).
Proof.
  intros (_ & _ & _ & Hu) [uris Hk].
  destruct (Hu k uris Hk) as (uris' & Hk' & _). eauto.
Qed.

End version_extends.

(** ** Ordered dictionaries of bindings *)

Section odicts.

Lemma odict_get_cons (k k' v' : string) (d : odict) :
  odict_get ((k', v') :: d) k
  = if decide (k = k') then Some v' else odict_get d k.
Proof.
  unfold odict_get. simpl.
  destruct (String.eqb_spec k k') as [-> | Hne].
  - rewrite decide_True by reflexivity. reflexivity.
  - rewrite decide_False by assumption. reflexivity.
Qed.

Lemma odict_get_set (d : odict) (k v k' : string) :
  odict_get (odict_set d k v) k'
  = if decide (k' = k) then Some v else odict_get d k'.
Proof.
  induction d as [| [k0 v0] d IH]; simpl.
  - rewrite odict_get_cons. reflexivity.
  - destruct (String.eqb_spec k k0) as [-> | Hne].
    + rewrite !odict_get_cons.
      destruct (decide (k' = k0)); reflexivity.
    + rewrite !odict_get_cons, IH.
      destruct (decide (k' = k0)) as [-> | ?]; [| reflexivity].
      rewrite decide_False by congruence. reflexivity.
Qed.

Lemma odict_get_of_keys (f : string -> string) (keys : list string) (k : string) :
  k ∈ keys -> odict_get (odict_of_keys f keys) k = Some (f k).
Proof.
  unfold odict_of_keys.
  assert (Hgen : forall d,
             odict_get (foldl (fun d k => odict_set d k (f k)) d keys) k
             = if decide (k ∈ keys) then Some (f k) else odict_get d k).
  { induction keys as [| k0 keys IH]; intros d; cbn [foldl].
    - destruct (decide (k ∈ [])) as [Hin | _]; [inversion Hin | reflexivity].
    - rewrite IH, odict_get_set.
      destruct (decide (k ∈ keys)) as [Hin | Hout].
      + rewrite decide_True by (right; exact Hin). reflexivity.
      + destruct (decide (k = k0)) as [-> | Hne].
        * rewrite decide_True by left. reflexivity.
        * rewrite decide_False; [reflexivity |].
          intros Hin. apply elem_of_cons in Hin as [? | ?]; contradiction. }
  intros Hin. rewrite Hgen, decide_True by exact Hin. reflexivity.
Qed.

Lemma odict_get_key (d : odict) (k : string) :
  k ∈ fst <$> d <-> is_Some (odict_get d k).
Proof.
  induction d as [| [k0 v0] d IH]; simpl.
  - split; [intros Hin; inversion Hin | intros [v Hv]; discriminate].
  - rewrite odict_get_cons, elem_of_cons, IH.
    destruct (decide (k = k0)) as [-> | Hne]; [split; eauto |].
    split; [intros [? | ?]; [contradiction | assumption] | auto].
Qed.

End odicts.

(** ** Binding the assets of a new version *)

Section binding.

Import DocumentManifest.

Lemma _latest_snoc (uris : timeline) (entry : string * string) :
  Document._latest (uris ++ [entry]) = snd entry.
Proof. unfold Document._latest. rewrite py_index_last. reflexivity. Qed.

Lemma new_assets_lookup (ids : list string) (k : string) :
  foldl (fun (m : gmap string timeline) aid => <[aid := []]> m) ∅ ids !! k
  = if decide (k ∈ ids) then Some [] else None.
Proof.
  assert (Hgen : forall m : gmap string timeline,
             foldl (fun m aid => <[aid := []]> m) m ids !! k
             = if decide (k ∈ ids) then Some [] else m !! k).
  { induction ids as [| aid ids IH]; intros m; cbn [foldl].
    - destruct (decide (k ∈ [])) as [Hin | _]; [inversion Hin | reflexivity].
    - rewrite IH.
      destruct (decide (k ∈ ids)) as [Hin | Hout].
      + rewrite decide_True by (right; exact Hin). reflexivity.
      + destruct (decide (k = aid)) as [-> | Hne].
        * rewrite decide_True by left. apply lookup_insert_eq.
        * rewrite decide_False.
          -- apply lookup_insert_ne. congruence.
          -- intros Hin. apply elem_of_cons in Hin as [? | ?]; contradiction. }
  rewrite Hgen. destruct (decide (k ∈ ids)); [reflexivity | apply lookup_empty].
Qed.

(** The loop ends without an exception when every id it is run on is
    bound in [d] and is an asset of the version.  It only extends the
    version; the timeline of an id it binds to a non-empty URI ends in
    that URI, and the other timelines are as they were. *)
Lemma bind_assets_spec (d : odict) (now : clock) (ids : list string) :
  forall (n : nat) (version : document_version),
    (forall k, k ∈ ids -> is_Some (odict_get d k)) ->
    (forall k, k ∈ ids -> is_Some (assets version !! k)) ->
    exists version',
      bind_assets d ids now n version = Ok version'
      /\ version_extends version version'
      /\ forall k uris',
           assets version' !! k = Some uris' ->
           (k ∈ ids ->
            forall u, odict_get d k = Some u -> u <> "" ->
                      Document._latest uris' = u)
           /\ (k ∉ ids \/ odict_get d k = Some "" ->
               assets version !! k = Some uris').
Proof.
  induction ids as [| asset_id ids IH]; intros n version Hbound Hassets.
  - exists version. split; [reflexivity |]. split; [apply version_extends_refl |].
    intros k uris' Hk. split; [intros Hin; inversion Hin | intros _; exact Hk].
  - simpl.
    destruct (Hbound asset_id) as [asset_uri Huri]; [left |]. rewrite Huri.
    assert (Hbound' : forall k, k ∈ ids -> is_Some (odict_get d k))
      by (intros k Hk; apply Hbound; right; exact Hk).
    destruct (String.eqb_spec asset_uri "") as [-> | Hnonempty].
    + destruct (IH n version Hbound') as (version' & Hrun & Hext & Hlatest).
      { intros k Hk. apply Hassets. right. exact Hk. }
      exists version'. split; [exact Hrun |]. split; [exact Hext |].
      intros k uris' Hk. destruct (Hlatest k uris' Hk) as [Hbind Hkeep]. split.
      * intros Hin u Hu Hne. apply elem_of_cons in Hin as [-> | Hin].
        -- rewrite Huri in Hu. congruence.
        -- exact (Hbind Hin u Hu Hne).
      * intros [Hout | Hempty]; apply Hkeep; [left | right; exact Hempty].
        intros Hin. apply Hout. right. exact Hin.
    + destruct (Hassets asset_id) as [uris Huris]; [left |].
      destruct (_new_asset_version version asset_id asset_uri now n)
        as [version1 | e] eqn:Hnew.
      2:{ unfold _new_asset_version in Hnew. rewrite Huris in Hnew. discriminate. }
      simpl.
      pose proof (_new_asset_version_extends _ _ _ _ _ _ Hnew) as Hext1.
      destruct (IH (S n) version1 Hbound') as (version' & Hrun & Hext & Hlatest).
      { intros k Hk. eapply version_extends_keys; [exact Hext1 |].
        apply Hassets. right. exact Hk. }
      exists version'. split; [exact Hrun |].
      split; [eapply version_extends_trans; eassumption |].
      apply _new_asset_version_ok in Hnew as (uris0 & Huris0 & ->).
      rewrite Huris in Huris0. injection Huris0 as <-.
      intros k uris' Hk. destruct (Hlatest k uris' Hk) as [Hbind Hkeep]. split.
      * intros Hin u Hu Hne.
        destruct (decide (k ∈ ids)) as [Hin' | Hout]; [exact (Hbind Hin' u Hu Hne) |].
        apply elem_of_cons in Hin as [-> | Hin]; [| contradiction].
        rewrite Huri in Hu. injection Hu as <-.
        specialize (Hkeep (or_introl Hout)). simpl in Hkeep.
        rewrite lookup_insert_eq in Hkeep. injection Hkeep as <-.
        apply _latest_snoc.
      * intros Hother.
        assert (Hne : k <> asset_id).
        { intros ->. destruct Hother as [Hout | Hempty].
          - apply Hout. left.
          - rewrite Huri in Hempty. congruence. }
        assert (Hother' : k ∉ ids \/ odict_get d k = Some "").
        { destruct Hother as [Hout | Hempty]; [left | right; exact Hempty].
          intros Hin. apply Hout. right. exact Hin. }
        specialize (Hkeep Hother'). simpl in Hkeep.
        rewrite lookup_insert_ne in Hkeep by congruence. exact Hkeep.
Qed.

End binding.

(** ** Manifest operations *)

Section manifest_operations.

Import DocumentManifest.

Lemma add_version_dict (m : document_manifest) (data_uri : string) (d : odict)
    (now : clock) :
  exists v',
    add_version m data_uri (AssetDict d) now = Ok (mk (id m) (versions m ++ [v']))
    /\ data v' = data_uri
    /\ forall k u,
         odict_get d k = Some u ->
         exists uris', assets v' !! k = Some uris' /\ Document._latest uris' = u.
Proof.
  unfold add_version.
  set (version := _new_version data_uri (AssetDict d) now).
  assert (Hnew : forall k, k ∈ fst <$> d -> assets version !! k = Some []).
  { intros k Hk. unfold version, _new_version. simpl.
    rewrite new_assets_lookup, decide_True by exact Hk. reflexivity. }
  destruct (bind_assets_spec d now (fst <$> d) 1 version)
    as (v' & Hrun & Hext & Hlatest).
  { intros k Hk. apply odict_get_key. exact Hk. }
  { intros k Hk. rewrite (Hnew k Hk). eauto. }
  exists v'. rewrite Hrun. split; [reflexivity |].
  split; [destruct Hext as (Hdata & _); exact Hdata |].
  intros k u Hu.
  assert (Hk : k ∈ fst <$> d) by (apply odict_get_key; eauto).
  destruct Hext as (_ & _ & _ & Hkept).
  destruct (Hkept k [] (Hnew k Hk)) as (uris' & Hk' & _).
  exists uris'. split; [exact Hk' |].
  destruct (Hlatest k uris' Hk') as [Hbind Hkeep].
  destruct (decide (u = "")) as [-> | Hne].
  - specialize (Hkeep (or_intror Hu)). rewrite (Hnew k Hk) in Hkeep.
    injection Hkeep as <-. reflexivity.
  - exact (Hbind Hk u Hu Hne).
Qed.

Lemma add_version_appends (m : document_manifest) (data_uri : string)
    (assets : asset_refs) (now : clock) :
  exists v', add_version m data_uri assets now = Ok (mk (id m) (versions m ++ [v'])).
Proof.
  destruct assets as [ids | d].
  - eexists. reflexivity.
  - destruct (add_version_dict m data_uri d now) as (v' & Hadd & _).
    exists v'. exact Hadd.
Qed.

Lemma add_asset_version_ok (m m' : document_manifest)
    (asset_id asset_uri : string) (now : clock) :
  add_asset_version m asset_id asset_uri now = Ok m' ->
  exists vs latest latest',
    versions m = vs ++ [latest]
    /\ _new_asset_version latest asset_id asset_uri now 0 = Ok latest'
    /\ m' = mk (id m) (vs ++ [latest']).
Proof.
  unfold add_asset_version.
  remember (versions m) as vs eqn:Hvs. symmetry in Hvs.
  induction vs as [| v0 vs0 _] using rev_ind.
  - rewrite py_index_nil. discriminate.
  - rewrite py_index_last. simpl.
    destruct (_new_asset_version v0 asset_id asset_uri now 0) as [latest' | e] eqn:Hnew;
      [| discriminate].
    simpl. rewrite py_setitem_last. simpl. intros [= <-].
    exists vs0, v0, latest'. repeat split. exact Hnew.
Qed.

Lemma Forall2_version_extends_refl (vs : list document_version) :
  Forall2 version_extends vs vs.
Proof. induction vs; constructor; [apply version_extends_refl | assumption]. Qed.

(** C7.  For every manifest [m]: [add_version] always yields a manifest
    [m'], and [add_asset_version], when it yields one, yields an [m'],
    in which every version of [m] stands at its place with its data URI,
    its timestamp and its asset ids, and every timeline of [m] is the
    beginning of the timeline it has become.  [add_version] adds one
    version at the end, [add_asset_version] adds none. *)
Theorem manifest_operations_append_only (m : document_manifest) :
  (forall data_uri assets now,
      exists m' v',
        add_version m data_uri assets now = Ok m'
        /\ versions m' = versions m ++ [v']
        /\ append_only m m')
  /\ (forall asset_id asset_uri now m',
        add_asset_version m asset_id asset_uri now = Ok m' ->
        length (versions m') = length (versions m)
        /\ append_only m m').
Proof.
  split.
  - intros data_uri assets now.
    destruct (add_version_appends m data_uri assets now) as (v' & Hadd).
    exists (mk (id m) (versions m ++ [v'])), v'.
    split; [exact Hadd |]. split; [reflexivity |].
    split; [reflexivity |].
    exists (versions m), [v']. split; [reflexivity |].
    apply Forall2_version_extends_refl.
  - intros asset_id asset_uri now m' Hadd.
    apply add_asset_version_ok in Hadd as (vs & latest & latest' & Hvs & Hnew & ->).
    simpl. rewrite Hvs. split; [rewrite !length_app; reflexivity |].
    split; [reflexivity |].
    exists (vs ++ [latest']), []. split; [rewrite app_nil_r; reflexivity |].
    rewrite Hvs. apply Forall2_app; [apply Forall2_version_extends_refl |].
    constructor; [| constructor].
    eapply _new_asset_version_extends. exact Hnew.
Qed.

End manifest_operations.

Lemma manifest_operations_append_only_witness :
  let m := Document._manifest sample_document in
  exists m',
    DocumentManifest.add_asset_version m "fig1" "http://x/fig1-v2.png" sample_clock
    = Ok m'
    /\ length (DocumentManifest.versions m') = length (DocumentManifest.versions m)
    /\ append_only m m'.
Proof.
  intros m. eexists. split; [reflexivity |].
  apply (proj2 (manifest_operations_append_only m)
           "fig1" "http://x/fig1-v2.png" sample_clock).
  reflexivity.
Defined.

(** ** Linking the assets of a new version *)

Section linking.

Import DocumentManifest.

(** C6.  For every document whose latest version binds the asset [a] to
    the URI [u1]: [new_version] with another data URL, at which the
    getter finds [a] again, adds a version, and [version()] of the
    document then shows that new version with [a] bound to [u1]. *)
Theorem new_version_carries_binding (self : Document.t)
    (latest : version_of string) (a u1 data_url : string)
    (assets_getter : string -> result (list string)) (keys : list string)
    (now : clock) :
  Document.version self (-1) = Ok latest ->
  assets latest !! a = Some u1 ->
  data latest <> data_url ->
  assets_getter data_url = Ok keys ->
  a ∈ keys ->
  exists self' latest',
    Document.new_version self data_url assets_getter now = (Ok (), self')
    /\ length (versions (Document._manifest self'))
       = S (length (versions (Document._manifest self)))
    /\ Document.version self' (-1) = Ok latest'
    /\ data latest' = data_url
    /\ assets latest' !! a = Some u1.
Proof.
  intros Hlatest Hbound Hnew Hfetch Hfound.
  set (d := odict_of_keys (fun asset_key => default "" (assets latest !! asset_key)) keys).
  destruct (add_version_dict (Document._manifest self) data_url d now)
    as (v' & Hadd & Hdata & Hlinked).
  set (m' := mk (id (Document._manifest self))
               (versions (Document._manifest self) ++ [v'])) in *.
  exists (Document.mk m').
  exists (mk_version (data v') (Document._latest <$> assets v') (timestamp v')).
  split; [| split; [| split; [| split]]].
  - unfold Document.new_version, Document._link_assets, Document.latest_assets.
    rewrite Hlatest. simpl.
    destruct (String.eqb_spec (data latest) data_url) as [Heq | _];
      [contradiction |].
    rewrite Hfetch. simpl. fold d. rewrite Hadd. reflexivity.
  - simpl. rewrite length_app. simpl. lia.
  - apply version_latest. simpl. apply last_snoc.
  - exact Hdata.
  - simpl. rewrite lookup_fmap.
    destruct (Hlinked a u1) as (uris' & Huris' & Hlast).
    { unfold d. rewrite (odict_get_of_keys _ keys a Hfound), Hbound. reflexivity. }
    rewrite Huris'. simpl. rewrite Hlast. reflexivity.
Qed.

End linking.

Lemma new_version_carries_binding_witness :
  exists self' latest',
    Document.new_version sample_document "http://x/v2.xml" sample_getter sample_clock
    = (Ok (), self')
    /\ length (DocumentManifest.versions (Document._manifest self'))
       = S (length (DocumentManifest.versions (Document._manifest sample_document)))
    /\ Document.version self' (-1) = Ok latest'
    /\ DocumentManifest.data latest' = "http://x/v2.xml"
    /\ DocumentManifest.assets latest' !! "fig1" = Some "http://x/fig1.png".
Proof.
  eapply (new_version_carries_binding sample_document _ "fig1" "http://x/fig1.png"
            "http://x/v2.xml" sample_getter ["fig1"] sample_clock).
  - reflexivity.
  - reflexivity.
  - discriminate.
  - reflexivity.
  - left.
Defined.

(** ** Bundles *)

Section bundles.

Variables (b : bundle_manifest) (now : clock).

Lemma set_metadata_raises (name : string) (v : value) (e : exn) :
  BundleManifest.set_metadata b name v now = Raise e ->
  e = KeyError \/ e = AttributeError.
Proof.
  unfold BundleManifest.set_metadata.
  destruct (b !! "metadata") as [[s | l | md] |]; try (intros [= <-]; auto).
  destruct (default (VList []) (md !! name)); simpl; intros [= <-]; auto.
Qed.

Lemma set_metadata_ready (name : string) (v : value) :
  metadata_ready name b ->
  exists b',
    BundleManifest.set_metadata b name v now = Ok b'
    /\ latest_metadata name b' v
    /\ b' !! "updated" = Some (VStr (now 0%nat)).
Proof.
  intros (md & Hmd & Hname). unfold BundleManifest.set_metadata. rewrite Hmd.
  assert (Hhistory : exists l, default (VList []) (md !! name) = VList l).
  { destruct Hname as [-> | [l ->]]; eauto. }
  destruct Hhistory as [l ->]. simpl.
  eexists. split; [reflexivity |]. split.
  - exists (<[name := VList (l ++ [VList [VStr (now 0%nat); v]])]> md), l, (now 0%nat).
    split.
    + rewrite lookup_insert_ne by discriminate. apply lookup_insert_eq.
    + apply lookup_insert_eq.
  - apply lookup_insert_eq.
Qed.

Lemma metadata_ready_new (id name : string) :
  metadata_ready name (BundleManifest.new id now).
Proof.
  exists ∅. split; [reflexivity | left; apply lookup_empty].
Qed.

(** [remove_component] leaves ["updated"] as it finds it. *)
Lemma remove_component_updated (name : string) (b' : bundle_manifest) :
  BundleManifest.remove_component b name = Ok b' ->
  name <> "updated" ->
  b' !! "updated" = b !! "updated".
Proof.
  unfold BundleManifest.remove_component.
  destruct (b !! name); [| discriminate].
  intros [= <-] Hname. apply lookup_delete_ne. exact Hname.
Qed.

(** The mutators that are given a clock stamp ["updated"] with its
    reading. *)
Lemma clocked_mutators_refresh_updated (b' : bundle_manifest) :
  (forall name v, BundleManifest.set_metadata b name v now = Ok b' ->
                  b' !! "updated" = Some (VStr (now 0%nat)))
  /\ (forall item, BundleManifest.add_item b item now = Ok b' ->
                   b' !! "updated" = Some (VStr (now 0%nat)))
  /\ (forall index item, BundleManifest.insert_item b index item now = Ok b' ->
                         b' !! "updated" = Some (VStr (now 0%nat)))
  /\ (forall item, BundleManifest.remove_item b item now = Ok b' ->
                   b' !! "updated" = Some (VStr (now 0%nat)))
  /\ (forall name v, BundleManifest.set_component b name v now = b' ->
                     b' !! "updated" = Some (VStr (now 0%nat))).
Proof.
  repeat split.
  - intros name v. unfold BundleManifest.set_metadata.
    destruct (b !! "metadata") as [[s | l | md] |]; try discriminate.
    destruct (py_append _ _); simpl; [| discriminate].
    intros [= <-]. apply lookup_insert_eq.
  - intros item. unfold BundleManifest.add_item.
    destruct (b !! "items") as [items |]; [| discriminate].
    destruct (str_in item items); [discriminate |].
    destruct (py_append _ _); simpl; [| discriminate].
    intros [= <-]. apply lookup_insert_eq.
  - intros index item. unfold BundleManifest.insert_item.
    destruct (b !! "items") as [items |]; [| discriminate].
    destruct (str_in item items); [discriminate |].
    destruct items; try discriminate.
    destruct (py_insert _ _ _); simpl; [| discriminate].
    intros [= <-]. apply lookup_insert_eq.
  - intros item. unfold BundleManifest.remove_item.
    destruct (b !! "items") as [items |]; [| discriminate].
    destruct (negb (str_in item items)); [discriminate |].
    destruct items; try discriminate.
    intros [= <-]. apply lookup_insert_eq.
  - intros name v <-. apply lookup_insert_eq.
Qed.

End bundles.

(** C4, at a journal linked to a bundle at 11:00.  Removing the component
    succeeds and the manifest that results bears the ["updated"] of the
    manifest it was made from: [remove_component] is given no clock and
    stamps nothing, where [set_component] and the four other mutators
    stamp ["updated"] with the reading of theirs. *)
Theorem remove_component_keeps_updated :
  exists b',
    BundleManifest.remove_component (Journal._manifest sample_journal) "aop" = Ok b'
    /\ Journal.remove_ahead_of_print_bundle sample_journal = (Ok (), Journal.mk b')
    /\ Journal._manifest sample_journal !! "aop" = Some (VStr "aop-bundle")
    /\ b' !! "aop" = None
    /\ b' !! "updated" = Journal._manifest sample_journal !! "updated"
    /\ b' !! "updated" = Some (VStr "2020-05-01T11:00:00.000000Z").
Proof.
  eexists. split; [reflexivity |]. repeat split.
Qed.

(** ** Subject areas of a journal *)

Section subject_areas.

Lemma invalid_nil (v : list string) :
  filter (fun item => item ∉ SUBJECT_AREAS) v = []
  <-> Forall (fun item => item ∈ SUBJECT_AREAS) v.
Proof.
  induction v as [| item v IH].
  - split; [constructor | reflexivity].
  - rewrite filter_cons. destruct (decide (item ∉ SUBJECT_AREAS)) as [Hout | Hin].
    + split; [discriminate |]. intros Hall. inversion Hall. contradiction.
    + rewrite IH. split.
      * intros Hall. constructor; [| exact Hall].
        destruct (decide (item ∈ SUBJECT_AREAS)); [assumption | contradiction].
      * intros Hall. inversion Hall. assumption.
Qed.

Lemma set_metadata_ok_ready (b b' : bundle_manifest) (name : string) (v : value)
    (now : clock) :
  BundleManifest.set_metadata b name v now = Ok b' -> metadata_ready name b.
Proof.
  unfold BundleManifest.set_metadata.
  destruct (b !! "metadata") as [[s | l | md] |] eqn:Hmd; try discriminate.
  destruct (md !! name) as [[s | l | d] |] eqn:Hname; simpl; try discriminate;
    intros _; exists md; (split; [exact Hmd |]); [right; eauto | left; exact Hname].
Qed.

(** C3, as the code has it.  The vocabulary is the eight strings below,
    the last of them with a comma behind LINGUISTIC.  For every journal,
    an element outside the vocabulary makes the setter raise
    [ValueError], and only that does; whatever the setter raises, the
    manifest is as it was; the setter succeeds only when every element
    is of the vocabulary, and then it does succeed, and stores the
    value, on a manifest whose metadata can be written; it succeeds
    exactly when every element is of the vocabulary and the metadata of
    the manifest can be written. *)
Theorem subject_areas_setter (self : Journal.t) (v : list string) (now : clock) :
  SUBJECT_AREAS
  = [ "AGRICULTURAL SCIENCES"; "APPLIED SOCIAL SCIENCES"; "BIOLOGICAL SCIENCES";
      "ENGINEERING"; "EXACT AND EARTH SCIENCES"; "HEALTH SCIENCES";
      "HUMAN SCIENCES"; "LINGUISTIC, LITERATURE AND ARTS" ]
  /\ (fst (Journal.set_subject_areas self v now) = Raise ValueError
      <-> ~ Forall (fun item => item ∈ SUBJECT_AREAS) v)
  /\ (forall e, fst (Journal.set_subject_areas self v now) = Raise e ->
                snd (Journal.set_subject_areas self v now) = self)
  /\ (fst (Journal.set_subject_areas self v now) = Ok () ->
      Forall (fun item => item ∈ SUBJECT_AREAS) v)
  /\ (metadata_ready "subject_areas" (Journal._manifest self) ->
      Forall (fun item => item ∈ SUBJECT_AREAS) v ->
      exists self',
        Journal.set_subject_areas self v now = (Ok (), self')
        /\ latest_metadata "subject_areas" (Journal._manifest self')
             (VList (VStr <$> v)))
  /\ (fst (Journal.set_subject_areas self v now) = Ok ()
      <-> Forall (fun item => item ∈ SUBJECT_AREAS) v
          /\ metadata_ready "subject_areas" (Journal._manifest self)).
Proof.
  split; [reflexivity |].
  pose proof (invalid_nil v) as Hinvalid.
  unfold Journal.set_subject_areas.
  destruct (filter (fun item => item ∉ SUBJECT_AREAS) v) as [| item invalid].
  - assert (Hall : Forall (fun item => item ∈ SUBJECT_AREAS) v)
      by (apply Hinvalid; reflexivity).
    unfold Journal.assign.
    destruct (BundleManifest.set_metadata (Journal._manifest self) "subject_areas"
                (VList (VStr <$> v)) now) as [m | e0] eqn:Hset; simpl.
    + split; [split; [discriminate | contradiction] |].
      split; [discriminate |]. split; [intros _; exact Hall |].
      split.
      * intros Hready _.
        destruct (set_metadata_ready (Journal._manifest self) now "subject_areas"
                    (VList (VStr <$> v)) Hready) as (m0 & Hset0 & Hstored & _).
        rewrite Hset in Hset0. injection Hset0 as <-.
        exists (Journal.mk m). split; [reflexivity | exact Hstored].
      * split; [intros _ | reflexivity].
        split; [exact Hall | eapply set_metadata_ok_ready; exact Hset].
    + split.
      { split; [| contradiction]. intros [= ->].
        apply set_metadata_raises in Hset as [? | ?]; discriminate. }
      split; [reflexivity |]. split; [discriminate |].
      assert (Hnot : ~ metadata_ready "subject_areas" (Journal._manifest self)).
      { intros Hready.
        destruct (set_metadata_ready (Journal._manifest self) now "subject_areas"
                    (VList (VStr <$> v)) Hready) as (m0 & Hset0 & _).
        rewrite Hset in Hset0. discriminate. }
      split; [intros Hready _; contradiction |].
      split; [discriminate | intros [_ Hready]; contradiction].
  - assert (Hsome : ~ Forall (fun item => item ∈ SUBJECT_AREAS) v).
    { intros Hall. apply Hinvalid in Hall. discriminate. }
    simpl. split; [split; [intros _; exact Hsome | reflexivity] |].
    split; [reflexivity |]. split; [discriminate |].
    split; [intros _ Hall; contradiction |].
    split; [discriminate | intros [Hall _]; contradiction].
Qed.

End subject_areas.

Lemma subject_areas_setter_witness :
  metadata_ready "subject_areas" (Journal._manifest sample_journal)
  /\ Forall (fun item => item ∈ SUBJECT_AREAS)
       ["ENGINEERING"; "LINGUISTIC, LITERATURE AND ARTS"]
  /\ exists self',
       Journal.set_subject_areas sample_journal
         ["ENGINEERING"; "LINGUISTIC, LITERATURE AND ARTS"] sample_clock
       = (Ok (), self')
       /\ latest_metadata "subject_areas" (Journal._manifest self')
            (VList [VStr "ENGINEERING"; VStr "LINGUISTIC, LITERATURE AND ARTS"]).
Proof.
  assert (Hready : metadata_ready "subject_areas" (Journal._manifest sample_journal)).
  { exists ∅. split; [reflexivity | left; reflexivity]. }
  assert (Hall : Forall (fun item => item ∈ SUBJECT_AREAS)
                   ["ENGINEERING"; "LINGUISTIC, LITERATURE AND ARTS"]).
  { repeat constructor. }
  split; [exact Hready |]. split; [exact Hall |].
  exact (proj1 (proj2 (proj2 (proj2 (proj2
           (subject_areas_setter sample_journal
              ["ENGINEERING"; "LINGUISTIC, LITERATURE AND ARTS"] sample_clock)))))
           Hready Hall).
Defined.

(** C3, as the specification words it, fails: LINGUISTIC LITERATURE AND
    ARTS, the eighth string of its list, is refused.  And on a journal
    whose manifest has no metadata, a value of the vocabulary is not
    stored: [set_metadata] raises [KeyError]. *)
Lemma subject_areas_vocabulary_counterexample :
  let v := ["LINGUISTIC LITERATURE AND ARTS"] in
  Forall (fun item => item ∈ SUBJECT_AREAS_spec) v
  /\ Journal.set_subject_areas sample_journal v sample_clock
     = (Raise ValueError, sample_journal)
  /\ Forall (fun item => item ∈ SUBJECT_AREAS_spec) ["ENGINEERING"]
  /\ Journal.init None (Some (<["id" := VStr "j1"]> ∅)) sample_clock
     = Ok (Journal.mk (<["id" := VStr "j1"]> ∅))
  /\ Journal.set_subject_areas (Journal.mk (<["id" := VStr "j1"]> ∅))
       ["ENGINEERING"] sample_clock
     = (Raise KeyError, Journal.mk (<["id" := VStr "j1"]> ∅)).
Proof.
  split; [repeat constructor |]. split; [reflexivity |].
  split; [repeat constructor |]. split; reflexivity.
Qed.

(** ** Inserting an item *)

Section insert_item.

Lemma insert_position_cases (n : nat) (index : Z) :
  ssize_t_min <= index <= ssize_t_max ->
  exists k : nat,
    insert_position n index = Ok k
    /\ (k <= n)%nat
    /\ (Z.of_nat n <= index -> k = n)
    /\ (index <= - Z.of_nat n -> k = 0%nat)
    /\ (0 <= index <= Z.of_nat n -> Z.of_nat k = index)
    /\ (- Z.of_nat n <= index < 0 -> Z.of_nat k = Z.of_nat n + index).
Proof.
  intros Hfits. unfold insert_position.
  destruct (Z.ltb_spec index ssize_t_min) as [? | _]; [lia |].
  destruct (Z.ltb_spec ssize_t_max index) as [? | _]; [lia |].
  cbn [orb]. eexists. split; [reflexivity |].
  unfold norm_index.
  destruct (Z.ltb_spec index 0) as [Hneg | Hpos].
  - destruct (Z.ltb_spec (index + Z.of_nat n) 0) as [Hlow | Hin].
    + destruct (Z.ltb_spec (Z.of_nat n) 0); lia.
    + destruct (Z.ltb_spec (Z.of_nat n) (index + Z.of_nat n)); lia.
  - destruct (Z.ltb_spec index 0) as [? | _]; [lia |].
    destruct (Z.ltb_spec (Z.of_nat n) index); lia.
Qed.

Lemma insert_position_overflow (n : nat) (index : Z) :
  index < ssize_t_min \/ ssize_t_max < index ->
  insert_position n index = Raise OverflowError.
Proof.
  intros Hout. unfold insert_position.
  destruct (Z.ltb_spec index ssize_t_min) as [_ | ?]; [reflexivity |].
  destruct (Z.ltb_spec ssize_t_max index) as [_ | ?]; [reflexivity | lia].
Qed.

(** C10, as the code has it.  For every bundle with its list of items
    and every item that is not in the list: with an index that fits the
    C type [ssize_t], from [- 2 ^ 63] to [2 ^ 63 - 1], [insert_item]
    succeeds; the item is put at the index, counted from the end when
    negative, and at the nearest end of the list when the index is out
    of the range of the list; the list is one item longer;
    [insert_document] and [insert_issue] do the same.  With any other
    index [insert_item] raises [OverflowError], and [insert_document] and
    [insert_issue] leave the aggregate as it was. *)
Theorem insert_item_clamps_index (b : bundle_manifest) (l : list value)
    (index : Z) (item : string) (now : clock) :
  b !! "items" = Some (VList l) ->
  str_in item (VList l) = false ->
  (ssize_t_min <= index <= ssize_t_max ->
   exists (k : nat) (b' : bundle_manifest),
     BundleManifest.insert_item b index item now = Ok b'
     /\ b' !! "items" = Some (VList (take k l ++ VStr item :: drop k l))
     /\ length (take k l ++ VStr item :: drop k l) = S (length l)
     /\ (k <= length l)%nat
     /\ (Z.of_nat (length l) <= index -> k = length l)
     /\ (index <= - Z.of_nat (length l) -> k = 0%nat)
     /\ (0 <= index <= Z.of_nat (length l) -> Z.of_nat k = index)
     /\ (- Z.of_nat (length l) <= index < 0 ->
         Z.of_nat k = Z.of_nat (length l) + index)
     /\ DocumentsBundle.insert_document (DocumentsBundle.mk b) index item now
        = (Ok (), DocumentsBundle.mk b')
     /\ Journal.insert_issue (Journal.mk b) index item now = (Ok (), Journal.mk b'))
  /\ (index < ssize_t_min \/ ssize_t_max < index ->
      BundleManifest.insert_item b index item now = Raise OverflowError
      /\ DocumentsBundle.insert_document (DocumentsBundle.mk b) index item now
         = (Raise OverflowError, DocumentsBundle.mk b)
      /\ Journal.insert_issue (Journal.mk b) index item now
         = (Raise OverflowError, Journal.mk b)).
Proof.
  intros Hitems Hfresh. split.
  - intros Hfits.
    destruct (insert_position_cases (length l) index Hfits)
      as (k & Hk & Hle & Hhigh & Hlow & Hin & Hneg).
    exists k.
    assert (Hcall : BundleManifest.insert_item b index item now
                    = Ok (<["updated" := VStr (now 0%nat)]>
                            (<["items" := VList (take k l ++ VStr item :: drop k l)]> b))).
    { unfold BundleManifest.insert_item, py_insert.
      rewrite Hitems, Hfresh, Hk. reflexivity. }
    eexists. split; [exact Hcall |].
    split.
    { rewrite lookup_insert_ne by discriminate. rewrite lookup_insert_eq. reflexivity. }
    split.
    { rewrite length_app, length_take. simpl. rewrite length_drop. lia. }
    split; [exact Hle |]. split; [exact Hhigh |]. split; [exact Hlow |].
    split; [exact Hin |]. split; [exact Hneg |].
    unfold DocumentsBundle.insert_document, Journal.insert_issue. simpl.
    rewrite Hcall. split; reflexivity.
  - intros Hout.
    assert (Hcall : BundleManifest.insert_item b index item now = Raise OverflowError).
    { unfold BundleManifest.insert_item, py_insert.
      rewrite Hitems, Hfresh, (insert_position_overflow _ _ Hout). reflexivity. }
    split; [exact Hcall |].
    unfold DocumentsBundle.insert_document, Journal.insert_issue. simpl.
    rewrite Hcall. split; reflexivity.
Qed.

End insert_item.

Lemma insert_item_clamps_index_witness :
  let b := <["items" := VList [VStr "d1"; VStr "d2"]]> (Journal._manifest sample_journal) in
  exists b',
    BundleManifest.insert_item b (-7) "d3" sample_clock = Ok b'
    /\ b' !! "items" = Some (VList [VStr "d3"; VStr "d1"; VStr "d2"]).
Proof.
  intros b.
  destruct (proj1 (insert_item_clamps_index b [VStr "d1"; VStr "d2"] (-7) "d3"
                     sample_clock eq_refl eq_refl))
    as (k & b' & Hcall & Hitems & _ & _ & _ & Hlow & _); [compute_done |].
  exists b'. split; [exact Hcall |].
  rewrite Hitems, (Hlow ltac:(simpl; lia)). reflexivity.
Defined.

(** C10, as it is worded, fails: the index [2 ^ 63] does not fit
    [ssize_t], and [list.insert] raises [OverflowError] where the claim
    has the item put at the end. *)
Lemma insert_item_overflow_counterexample :
  sample_bundle !! "items" = Some (VList [VStr "d1"; VStr "d2"])
  /\ str_in "d3" (VList [VStr "d1"; VStr "d2"]) = false
  /\ BundleManifest.insert_item sample_bundle (2 ^ 63) "d3" sample_clock
     = Raise OverflowError
  /\ DocumentsBundle.insert_document (DocumentsBundle.mk sample_bundle) (2 ^ 63) "d3"
       sample_clock
     = (Raise OverflowError, DocumentsBundle.mk sample_bundle)
  /\ Journal.insert_issue (Journal.mk sample_bundle) (2 ^ 63) "d3" sample_clock
     = (Raise OverflowError, Journal.mk sample_bundle).
Proof. repeat split. Qed.

(** ** Widening of a bare date *)

Section date_widening.

Import DocumentManifest.

Lemma digits_app (n : nat) (s r t : string) :
  digits n s = Some r -> digits n (s +:+ t) = Some (r +:+ t).
Proof.
  revert s. induction n as [| n IH]; intros s.
  - intros [= ->]. reflexivity.
  - destruct s as [| c s]; [discriminate |].
    change (String c s +:+ t) with (String c (s +:+ t)).
    cbn [digits]. destruct (is_digit c); [apply IH | discriminate].
Qed.

Lemma lit_app (c : ascii) (s r t : string) :
  lit c s = Some r -> lit c (s +:+ t) = Some (r +:+ t).
Proof.
  destruct s as [| c' s]; [discriminate |].
  change (String c' s +:+ t) with (String c' (s +:+ t)). simpl.
  destruct (Ascii.eqb c c'); [intros [= ->]; reflexivity | discriminate].
Qed.

Lemma date_prefix_app (s r t : string) :
  date_prefix s = Some r -> date_prefix (s +:+ t) = Some (r +:+ t).
Proof.
  unfold date_prefix.
  destruct (digits 4 s) as [s1 |] eqn:H1; [| discriminate].
  rewrite (digits_app _ _ _ t H1). cbn [mbind option_bind].
  destruct (lit "-" s1) as [s2 |] eqn:H2; [| discriminate].
  rewrite (lit_app _ _ _ t H2). cbn [mbind option_bind].
  destruct (digits 2 s2) as [s3 |] eqn:H3; [| discriminate].
  rewrite (digits_app _ _ _ t H3). cbn [mbind option_bind].
  destruct (lit "-" s3) as [s4 |] eqn:H4; [| discriminate].
  rewrite (lit_app _ _ _ t H4). cbn [mbind option_bind].
  apply digits_app.
Qed.

Lemma at_end_cases (s : string) :
  at_end s = true -> s = "" \/ s = String "010" "".
Proof.
  destruct s as [| c [| c' s]]; simpl; [auto | | discriminate].
  intros Hc. apply Ascii.eqb_eq in Hc as ->. auto.
Qed.

(** The pattern that admits a timestamp has no place for a fraction of a
    second: it refuses every bare date once widened. *)
Lemma widened_date_refused (date : string) :
  match_date_pattern date = true ->
  match_timestamp_pattern (date +:+ "T23:59:59.999999Z") = false.
Proof.
  unfold match_date_pattern, match_timestamp_pattern.
  destruct (date_prefix date) as [rest |] eqn:Hdate; [| discriminate].
  simpl. intros Hend.
  rewrite (date_prefix_app _ _ "T23:59:59.999999Z" Hdate).
  apply at_end_cases in Hend as [-> | ->]; reflexivity.
Qed.

(** A bare date is resolved at the end of its day, and the timestamp it
    was widened to is itself refused, for every document. *)
Lemma version_at_bare_date (self : Document.t) (date : string) :
  match_date_pattern date = true ->
  Document.version_at self date
  = (target_version ← Document.target_version (versions (Document._manifest self))
                         (date +:+ "T23:59:59.999999Z");
     Ok (mk_version (data target_version)
           (Document._at_time (date +:+ "T23:59:59.999999Z") <$> assets target_version)
           (timestamp target_version)))
  /\ Document.version_at self (date +:+ "T23:59:59.999999Z") = Raise ValueError.
Proof.
  intros Hdate. split.
  - unfold Document.version_at. rewrite Hdate.
    unfold match_date_pattern in Hdate. unfold match_timestamp_pattern.
    destruct (date_prefix date) as [rest |]; [| discriminate].
    simpl in Hdate. rewrite Hdate. reflexivity.
  - unfold Document.version_at. rewrite (widened_date_refused date Hdate).
    reflexivity.
Qed.

(** A timestamp with its time of day is resolved as it is given. *)
Lemma version_at_timestamp (self : Document.t) (timestamp : string) :
  match_timestamp_pattern timestamp = true ->
  match_date_pattern timestamp = false ->
  Document.version_at self timestamp
  = (target_version ← Document.target_version (versions (Document._manifest self))
                         timestamp;
     Ok (mk_version (data target_version)
           (Document._at_time timestamp <$> assets target_version)
           (DocumentManifest.timestamp target_version))).
Proof.
  intros Hok Hdate. unfold Document.version_at. rewrite Hok, Hdate. reflexivity.
Qed.

End date_widening.

(** C1, at a document whose one version was made on 2020-05-01 at 10:00.
    Asked for the bare date, [version_at] answers with that version and
    the binding its asset had; asked for the same date widened to the end
    of the day it raises [ValueError], as its pattern has no place for the
    fraction of a second. *)
Theorem version_at_widened_date_differs :
  Document.version_at sample_document "2020-05-01"
  = Ok (DocumentManifest.mk_version "http://x/v1.xml"
          (<["fig1" := "http://x/fig1.png"]> ∅) "2020-05-01T10:00:00.000000Z")
  /\ Document.version_at sample_document "2020-05-01T23:59:59.999999Z"
     = Raise ValueError.
Proof. split; reflexivity. Qed.

(** * Further properties *)

(** ** Items of a bundle *)

Section items.

Lemma str_in_items (item : string) (l : list string) :
  str_in item (VList (VStr <$> l)) = bool_decide (item ∈ l).
Proof.
  simpl. induction l as [| x l IH]; [reflexivity |].
  rewrite fmap_cons. cbn [existsb str_eqb]. rewrite IH.
  destruct (String.eqb_spec item x) as [-> | Hne]; simpl.
  - symmetry. apply bool_decide_eq_true_2. left.
  - destruct (decide (item ∈ l)) as [Hin | Hout].
    + rewrite !bool_decide_eq_true_2; [reflexivity | right; exact Hin | exact Hin].
    + rewrite !bool_decide_eq_false_2; [reflexivity | | exact Hout].
      intros Hin. apply elem_of_cons in Hin as [? | ?]; contradiction.
Qed.

Lemma py_remove_items (item : string) (l1 l2 : list string) :
  item ∉ l1 ->
  py_remove item (VStr <$> (l1 ++ item :: l2)) = VStr <$> (l1 ++ l2).
Proof.
  induction l1 as [| x l1 IH]; intros Hout.
  - simpl. rewrite String.eqb_refl. reflexivity.
  - rewrite <- !app_comm_cons, !fmap_cons. cbn [py_remove str_eqb].
    destruct (String.eqb_spec item x) as [-> | Hne].
    + exfalso. apply Hout. left.
    + rewrite IH; [reflexivity |]. intros Hin. apply Hout. right. exact Hin.
Qed.

Lemma py_insert_fmap {A B} (f : A -> B) (l : list A) (index : Z) (x : A) :
  py_insert (f <$> l) index (f x)
  = match py_insert l index x with
    | Ok l' => Ok (f <$> l')
    | Raise e => Raise e
    end.
Proof.
  unfold py_insert. rewrite length_fmap.
  destruct (insert_position (length l) index) as [k | e]; [| reflexivity].
  simpl. rewrite fmap_app, fmap_cons, fmap_take, fmap_drop. reflexivity.
Qed.

Lemma py_insert_ok {A} (l l' : list A) (index : Z) (x : A) :
  py_insert l index x = Ok l' ->
  exists l1 l2, l = l1 ++ l2 /\ l' = l1 ++ x :: l2.
Proof.
  unfold py_insert.
  destruct (insert_position (length l) index) as [k | e]; [| discriminate].
  simpl. intros [= <-]. eexists _, _. split; [| reflexivity].
  symmetry. apply take_drop.
Qed.

Lemma py_insert_fits {A} (l : list A) (index : Z) (x : A) :
  ssize_t_min <= index <= ssize_t_max ->
  exists l1 l2, l = l1 ++ l2 /\ py_insert l index x = Ok (l1 ++ x :: l2).
Proof.
  intros Hfits. unfold py_insert.
  destruct (insert_position_cases (length l) index Hfits) as (k & -> & _).
  simpl. eexists _, _. split; [| reflexivity].
  symmetry. apply take_drop.
Qed.

Lemma py_insert_overflow {A} (l : list A) (index : Z) (x : A) :
  index < ssize_t_min \/ ssize_t_max < index ->
  py_insert l index x = Raise OverflowError.
Proof.
  intros Hout. unfold py_insert.
  rewrite (insert_position_overflow _ _ Hout). reflexivity.
Qed.

End items.

Section item_operations.

Variables (b : bundle_manifest) (l : list string) (now : clock).

Hypothesis Hitems : items_are b l.

Lemma stamped_items (l' : list string) : items_are (with_items b now l') l'.
Proof.
  unfold items_are, with_items.
  rewrite lookup_insert_ne by discriminate. apply lookup_insert_eq.
Qed.

Lemma stamped_frame (l' : list string) (k : string) :
  k <> "items" -> k <> "updated" -> with_items b now l' !! k = b !! k.
Proof.
  intros Hk1 Hk2. unfold with_items.
  rewrite !lookup_insert_ne by congruence. reflexivity.
Qed.

Lemma add_item_fresh (item : string) :
  item ∉ l -> BundleManifest.add_item b item now = Ok (with_items b now (l ++ [item])).
Proof.
  intros Hfresh. unfold BundleManifest.add_item. rewrite Hitems, str_in_items.
  rewrite bool_decide_eq_false_2 by exact Hfresh. simpl.
  unfold with_items. rewrite fmap_app. reflexivity.
Qed.

Lemma insert_item_fresh (index : Z) (item : string) :
  item ∉ l ->
  BundleManifest.insert_item b index item now
  = match py_insert l index item with
    | Ok l' => Ok (with_items b now l')
    | Raise e => Raise e
    end.
Proof.
  intros Hfresh. unfold BundleManifest.insert_item. rewrite Hitems, str_in_items.
  rewrite bool_decide_eq_false_2 by exact Hfresh.
  rewrite py_insert_fmap. destruct (py_insert l index item); reflexivity.
Qed.

Lemma remove_item_present (item : string) (l1 l2 : list string) :
  l = l1 ++ item :: l2 -> item ∉ l1 ->
  BundleManifest.remove_item b item now = Ok (with_items b now (l1 ++ l2)).
Proof.
  intros Hsplit Hfirst. unfold BundleManifest.remove_item.
  rewrite Hitems, str_in_items.
  rewrite bool_decide_eq_true_2 by (rewrite Hsplit; set_solver). simpl.
  rewrite Hsplit, py_remove_items by exact Hfirst. reflexivity.
Qed.

(** X1.  On a bundle whose items are the strings [l]: [add_item] of an
    item of [l] raises [AlreadyExists], and [add_document] then leaves the
    bundle as it was; [add_item] of any other item puts it at the end of
    [l], stamps ["updated"] and changes no other key. *)
Theorem add_item_appends_or_rejects (item : string) :
  (item ∈ l ->
   BundleManifest.add_item b item now = Raise AlreadyExists
   /\ DocumentsBundle.add_document (DocumentsBundle.mk b) item now
      = (Raise AlreadyExists, DocumentsBundle.mk b))
  /\ (item ∉ l ->
      exists b',
        BundleManifest.add_item b item now = Ok b'
        /\ items_are b' (l ++ [item])
        /\ b' !! "updated" = Some (VStr (now 0%nat))
        /\ forall k, k <> "items" -> k <> "updated" -> b' !! k = b !! k).
Proof.
  split.
  - intros Hin.
    assert (Hcall : BundleManifest.add_item b item now = Raise AlreadyExists).
    { unfold BundleManifest.add_item. rewrite Hitems, str_in_items.
      rewrite bool_decide_eq_true_2 by exact Hin. reflexivity. }
    split; [exact Hcall |].
    unfold DocumentsBundle.add_document. simpl. rewrite Hcall. reflexivity.
  - intros Hfresh. exists (with_items b now (l ++ [item])).
    split; [apply add_item_fresh; exact Hfresh |].
    split; [apply stamped_items |].
    split; [apply lookup_insert_eq | apply stamped_frame].
Qed.

(** X2.  On a bundle whose items are the strings [l]: [remove_item] of an
    item that is not in [l] raises [DoesNotExist], and [remove_document]
    then leaves the bundle as it was; [remove_item] of an item of [l]
    takes its first occurrence out, keeps the other items in their order,
    stamps ["updated"] and changes no other key. *)
Theorem remove_item_removes_or_rejects (item : string) :
  (item ∉ l ->
   BundleManifest.remove_item b item now = Raise DoesNotExist
   /\ DocumentsBundle.remove_document (DocumentsBundle.mk b) item now
      = (Raise DoesNotExist, DocumentsBundle.mk b))
  /\ (forall l1 l2,
        l = l1 ++ item :: l2 -> item ∉ l1 ->
        exists b',
          BundleManifest.remove_item b item now = Ok b'
          /\ items_are b' (l1 ++ l2)
          /\ b' !! "updated" = Some (VStr (now 0%nat))
          /\ forall k, k <> "items" -> k <> "updated" -> b' !! k = b !! k).
Proof.
  split.
  - intros Hout.
    assert (Hcall : BundleManifest.remove_item b item now = Raise DoesNotExist).
    { unfold BundleManifest.remove_item. rewrite Hitems, str_in_items.
      rewrite bool_decide_eq_false_2 by exact Hout. reflexivity. }
    split; [exact Hcall |].
    unfold DocumentsBundle.remove_document. simpl. rewrite Hcall. reflexivity.
  - intros l1 l2 Hsplit Hfirst. exists (with_items b now (l1 ++ l2)).
    split; [apply remove_item_present; assumption |].
    split; [apply stamped_items |].
    split; [apply lookup_insert_eq | apply stamped_frame].
Qed.

(** X3.  Items stay unique.  On a bundle whose items are strings without
    a duplicate, whatever [add_item], [insert_item] or [remove_item]
    returns has items without a duplicate, and what [set_metadata]
    returns has the same items. *)
Theorem item_operations_keep_items_unique (b' : bundle_manifest) :
  NoDup l ->
  (forall item, BundleManifest.add_item b item now = Ok b' ->
                exists l', items_are b' l' /\ NoDup l')
  /\ (forall index item, BundleManifest.insert_item b index item now = Ok b' ->
                         exists l', items_are b' l' /\ NoDup l')
  /\ (forall item, BundleManifest.remove_item b item now = Ok b' ->
                   exists l', items_are b' l' /\ NoDup l')
  /\ (forall name v, BundleManifest.set_metadata b name v now = Ok b' ->
                     items_are b' l).
Proof.
  intros Hunique. repeat split.
  - intros item Hcall. destruct (decide (item ∈ l)) as [Hin | Hfresh].
    + unfold BundleManifest.add_item in Hcall. rewrite Hitems, str_in_items in Hcall.
      rewrite bool_decide_eq_true_2 in Hcall by exact Hin. discriminate.
    + rewrite (add_item_fresh item Hfresh) in Hcall. injection Hcall as <-.
      exists (l ++ [item]). split; [apply stamped_items |].
      apply NoDup_app. split; [exact Hunique |].
      split; [| apply NoDup_singleton].
      intros x Hx Hx'. apply list_elem_of_singleton in Hx' as ->. contradiction.
  - intros index item Hcall. destruct (decide (item ∈ l)) as [Hin | Hfresh].
    + unfold BundleManifest.insert_item in Hcall.
      rewrite Hitems, str_in_items in Hcall.
      rewrite bool_decide_eq_true_2 in Hcall by exact Hin. discriminate.
    + rewrite (insert_item_fresh index item Hfresh) in Hcall.
      destruct (py_insert l index item) as [l' | e] eqn:Hinsert; [| discriminate].
      injection Hcall as <-.
      apply py_insert_ok in Hinsert as (l1 & l2 & Hl & ->).
      exists (l1 ++ item :: l2). split; [apply stamped_items |].
      rewrite <- Permutation_middle, <- Hl. apply NoDup_cons. split; assumption.
  - intros item Hcall. destruct (decide (item ∈ l)) as [Hin | Hout].
    + apply list_elem_of_split_l in Hin as (l1 & l2 & Hsplit & Hfirst).
      rewrite (remove_item_present item l1 l2 Hsplit Hfirst) in Hcall.
      injection Hcall as <-.
      exists (l1 ++ l2). split; [apply stamped_items |].
      rewrite Hsplit in Hunique.
      apply NoDup_app in Hunique as (H1 & H12 & H2).
      apply NoDup_cons in H2 as [_ H2].
      apply NoDup_app. split; [exact H1 |]. split; [| exact H2].
      intros x Hx Hx'. apply (H12 x Hx). right. exact Hx'.
    + unfold BundleManifest.remove_item in Hcall.
      rewrite Hitems, str_in_items in Hcall.
      rewrite bool_decide_eq_false_2 in Hcall by exact Hout. discriminate.
  - intros name v. unfold BundleManifest.set_metadata.
    destruct (b !! "metadata") as [[s | l0 | md] |]; try discriminate.
    destruct (py_append _ _); simpl; [| discriminate].
    intros [= <-]. unfold items_are.
    rewrite !lookup_insert_ne by discriminate. exact Hitems.
Qed.

End item_operations.

(** X4.  Inserting an item that is not in the bundle, at whatever index
    fits [ssize_t], or adding it, and then removing it gives back the
    items there were, in their order. *)
Theorem insert_then_remove_restores_items (b : bundle_manifest) (l : list string)
    (index : Z) (item : string) (now1 now2 : clock) :
  items_are b l ->
  item ∉ l ->
  (ssize_t_min <= index <= ssize_t_max ->
   exists b1 b2,
     BundleManifest.insert_item b index item now1 = Ok b1
     /\ BundleManifest.remove_item b1 item now2 = Ok b2
     /\ items_are b2 l)
  /\ (exists b1 b2,
        BundleManifest.add_item b item now1 = Ok b1
        /\ BundleManifest.remove_item b1 item now2 = Ok b2
        /\ items_are b2 l).
Proof.
  intros Hitems Hfresh. split.
  - intros Hfits.
    destruct (py_insert_fits l index item Hfits) as (l1 & l2 & Hl & Hinsert).
    assert (Hfirst : item ∉ l1).
    { intros Hin. apply Hfresh. rewrite Hl. apply elem_of_app. left. exact Hin. }
    exists (with_items b now1 (l1 ++ item :: l2)).
    exists (with_items (with_items b now1 (l1 ++ item :: l2)) now2 (l1 ++ l2)).
    split; [rewrite (insert_item_fresh b l now1 Hitems index item Hfresh), Hinsert;
            reflexivity |].
    split.
    + apply (remove_item_present _ (l1 ++ item :: l2)); try assumption; try reflexivity.
      apply stamped_items.
    + rewrite Hl. apply stamped_items.
  - exists (with_items b now1 (l ++ [item])).
    exists (with_items (with_items b now1 (l ++ [item])) now2 (l ++ [])).
    split; [apply add_item_fresh; assumption |]. split.
    + apply (remove_item_present _ (l ++ [item])); try assumption; try reflexivity.
      apply stamped_items.
    + rewrite app_nil_r. apply stamped_items.
Qed.

Lemma add_item_appends_or_rejects_witness :
  items_are sample_bundle ["d1"; "d2"]
  /\ BundleManifest.add_item sample_bundle "d1" sample_clock = Raise AlreadyExists
  /\ exists b',
       BundleManifest.add_item sample_bundle "d3" sample_clock = Ok b'
       /\ items_are b' ["d1"; "d2"; "d3"].
Proof.
  assert (Hitems : items_are sample_bundle ["d1"; "d2"]) by reflexivity.
  split; [exact Hitems |]. split.
  - apply (add_item_appends_or_rejects sample_bundle ["d1"; "d2"] sample_clock
             Hitems "d1").
    left.
  - destruct (proj2 (add_item_appends_or_rejects sample_bundle ["d1"; "d2"]
                       sample_clock Hitems "d3"))
      as (b' & Hcall & Hitems' & _).
    { compute_done. }
    exists b'. split; assumption.
Defined.

Lemma remove_item_removes_or_rejects_witness :
  items_are sample_bundle ["d1"; "d2"]
  /\ BundleManifest.remove_item sample_bundle "d3" sample_clock = Raise DoesNotExist
  /\ exists b',
       BundleManifest.remove_item sample_bundle "d1" sample_clock = Ok b'
       /\ items_are b' ["d2"].
Proof.
  assert (Hitems : items_are sample_bundle ["d1"; "d2"]) by reflexivity.
  split; [exact Hitems |]. split.
  - apply (remove_item_removes_or_rejects sample_bundle ["d1"; "d2"] sample_clock
             Hitems "d3").
    compute_done.
  - destruct (proj2 (remove_item_removes_or_rejects sample_bundle ["d1"; "d2"]
                       sample_clock Hitems "d1") [] ["d2"])
      as (b' & Hcall & Hitems' & _).
    { reflexivity. }
    { intros Hin. inversion Hin. }
    exists b'. split; assumption.
Defined.

Lemma item_operations_keep_items_unique_witness :
  items_are sample_bundle ["d1"; "d2"]
  /\ NoDup ["d1"; "d2"]
  /\ exists b' l',
       BundleManifest.insert_item sample_bundle 1 "d3" sample_clock = Ok b'
       /\ items_are b' l' /\ NoDup l'.
Proof.
  assert (Hitems : items_are sample_bundle ["d1"; "d2"]) by reflexivity.
  assert (Hunique : NoDup ["d1"; "d2"]).
  { compute_done. }
  split; [exact Hitems |]. split; [exact Hunique |].
  eexists.
  destruct (proj1 (proj2 (item_operations_keep_items_unique sample_bundle
                            ["d1"; "d2"] sample_clock Hitems _ Hunique))
              1 "d3" eq_refl) as (l' & Hitems' & Hunique').
  exists l'. split; [reflexivity |]. split; assumption.
Defined.

Lemma insert_then_remove_restores_items_witness :
  exists b1 b2,
    BundleManifest.insert_item sample_bundle (-1) "d3" sample_clock = Ok b1
    /\ BundleManifest.remove_item b1 "d3" sample_clock = Ok b2
    /\ items_are b2 ["d1"; "d2"].
Proof.
  apply (proj1 (insert_then_remove_restores_items sample_bundle ["d1"; "d2"] (-1) "d3"
                  sample_clock sample_clock eq_refl ltac:(compute_done))).
  compute_done.
Defined.

(** ** Metadata of a bundle *)

Section metadata.

Variables (b : bundle_manifest) (name : string) (v : value) (now : clock).

Lemma get_metadata_all_set (md : gmap string value) (history : value)
    (name' : string) :
  BundleManifest.get_metadata_all
    (<["updated" := VStr (now 0%nat)]>
       (<["metadata" := VDict (<[name := history]> md)]> b)) name'
  = Ok (if decide (name' = name) then history
        else match md !! name' with
             | Some h => h
             | None => VList []
             end).
Proof.
  unfold BundleManifest.get_metadata_all.
  rewrite lookup_insert_ne by discriminate. rewrite lookup_insert_eq.
  destruct (decide (name' = name)) as [-> | Hne].
  - rewrite lookup_insert_eq. reflexivity.
  - rewrite lookup_insert_ne by congruence. reflexivity.
Qed.

Lemma set_metadata_written (md : gmap string value) (l : list value) :
  b !! "metadata" = Some (VDict md) ->
  (md !! name = None /\ l = [] \/ md !! name = Some (VList l)) ->
  BundleManifest.set_metadata b name v now
  = Ok (<["updated" := VStr (now 0%nat)]>
          (<["metadata" :=
               VDict (<[name := VList (l ++ [VList [VStr (now 0%nat); v]])]> md)]> b)).
Proof.
  intros Hmd Hname. unfold BundleManifest.set_metadata. rewrite Hmd.
  destruct Hname as [[-> ->] | ->]; reflexivity.
Qed.

Lemma metadata_ready_history :
  metadata_ready name b ->
  exists md l,
    b !! "metadata" = Some (VDict md)
    /\ (md !! name = None /\ l = [] \/ md !! name = Some (VList l))
    /\ BundleManifest.get_metadata_all b name = Ok (VList l).
Proof.
  intros (md & Hmd & Hname). exists md.
  destruct Hname as [Hnone | [l Hsome]].
  - exists []. split; [exact Hmd |]. split; [left; split; [exact Hnone | reflexivity] |].
    unfold BundleManifest.get_metadata_all. rewrite Hmd, Hnone. reflexivity.
  - exists l. split; [exact Hmd |]. split; [right; exact Hsome |].
    unfold BundleManifest.get_metadata_all. rewrite Hmd, Hsome. reflexivity.
Qed.

(** X5.  On a manifest whose field [name] can be written, [set_metadata]
    succeeds, [get_metadata] of [name] then returns the value just set,
    whatever the default, [get_metadata] of every other field returns
    what it returned, and no key but ["metadata"] and ["updated"] has
    changed. *)
Theorem set_then_get_metadata :
  metadata_ready name b ->
  exists b',
    BundleManifest.set_metadata b name v now = Ok b'
    /\ (forall default, BundleManifest.get_metadata b' name default = Ok v)
    /\ (forall name' default,
          name' <> name ->
          BundleManifest.get_metadata b' name' default
          = BundleManifest.get_metadata b name' default)
    /\ (forall k, k <> "metadata" -> k <> "updated" -> b' !! k = b !! k).
Proof.
  intros Hready.
  destruct (metadata_ready_history Hready) as (md & l & Hmd & Hname & _).
  eexists. split; [apply (set_metadata_written md l Hmd Hname) |].
  split; [| split].
  - intros default. unfold BundleManifest.get_metadata.
    rewrite get_metadata_all_set, decide_True by reflexivity.
    cbn [mbind result_bind py_getitem]. rewrite py_index_last. reflexivity.
  - intros name' default Hne. unfold BundleManifest.get_metadata.
    rewrite get_metadata_all_set, decide_False by exact Hne.
    unfold BundleManifest.get_metadata_all. rewrite Hmd. reflexivity.
  - intros k Hk1 Hk2. rewrite !lookup_insert_ne by congruence. reflexivity.
Qed.

(** X6.  On a manifest whose field [name] can be written, the history
    that [get_metadata_all] returns after [set_metadata] is the history
    it returned before, followed by the pair of the reading of the clock
    and the value. *)
Theorem set_metadata_extends_history :
  metadata_ready name b ->
  exists b' l,
    BundleManifest.get_metadata_all b name = Ok (VList l)
    /\ BundleManifest.set_metadata b name v now = Ok b'
    /\ BundleManifest.get_metadata_all b' name
       = Ok (VList (l ++ [VList [VStr (now 0%nat); v]])).
Proof.
  intros Hready.
  destruct (metadata_ready_history Hready) as (md & l & Hmd & Hname & Hall).
  eexists. exists l. split; [exact Hall |].
  split; [apply (set_metadata_written md l Hmd Hname) |].
  rewrite get_metadata_all_set, decide_True by reflexivity. reflexivity.
Qed.

End metadata.

Lemma set_then_get_metadata_witness :
  metadata_ready "title" (Journal._manifest sample_journal)
  /\ exists b',
       BundleManifest.set_metadata (Journal._manifest sample_journal) "title"
         (VStr "Revista") sample_clock = Ok b'
       /\ BundleManifest.get_metadata b' "title" (VStr "") = Ok (VStr "Revista").
Proof.
  assert (Hready : metadata_ready "title" (Journal._manifest sample_journal)).
  { exists ∅. split; [reflexivity | left; reflexivity]. }
  split; [exact Hready |].
  destruct (set_then_get_metadata (Journal._manifest sample_journal) "title"
              (VStr "Revista") sample_clock Hready) as (b' & Hset & Hget & _).
  exists b'. split; [exact Hset | apply Hget].
Defined.

Lemma set_metadata_extends_history_witness :
  metadata_ready "title" (Journal._manifest sample_journal)
  /\ exists b',
       BundleManifest.set_metadata (Journal._manifest sample_journal) "title"
         (VStr "Revista") sample_clock = Ok b'
       /\ BundleManifest.get_metadata_all b' "title"
          = Ok (VList [VList [VStr "2020-05-02T08:00:00.000000Z"; VStr "Revista"]]).
Proof.
  assert (Hready : metadata_ready "title" (Journal._manifest sample_journal)).
  { exists ∅. split; [reflexivity | left; reflexivity]. }
  split; [exact Hready |].
  destruct (set_metadata_extends_history (Journal._manifest sample_journal) "title"
              (VStr "Revista") sample_clock Hready) as (b' & l & Hold & Hset & Hnew).
  exists b'. split; [exact Hset |].
  rewrite Hnew. injection Hold as <-. reflexivity.
Defined.

(** ** Journals *)

(** X7.  On a journal whose status can be written, the setter of
    [status] succeeds; [status] then returns the dictionary just set, and
    [status_history] the history there was followed by the pair of the
    reading of the clock and that dictionary. *)
Theorem journal_status_keeps_history (self : Journal.t) (s : gmap string value)
    (now : clock) :
  metadata_ready "status" (Journal._manifest self) ->
  exists self' l,
    Journal.status_history self = Ok (VList l)
    /\ Journal.set_status self s now = (Ok (), self')
    /\ Journal.status self' = Ok (VDict s)
    /\ Journal.status_history self'
       = Ok (VList (l ++ [VList [VStr (now 0%nat); VDict s]])).
Proof.
  intros Hready.
  destruct (set_metadata_extends_history (Journal._manifest self) "status"
              (VDict s) now Hready) as (b' & l & Hold & Hset & Hnew).
  destruct (set_then_get_metadata (Journal._manifest self) "status"
              (VDict s) now Hready) as (b0 & Hset0 & Hget & _).
  rewrite Hset in Hset0. injection Hset0 as <-.
  exists (Journal.mk b'), l. split; [exact Hold |]. split.
  - unfold Journal.set_status. rewrite Hset. reflexivity.
  - split; [apply Hget | exact Hnew].
Qed.

Lemma journal_status_keeps_history_witness :
  exists self',
    Journal.set_status sample_journal (<["status" := VStr "current"]> ∅) sample_clock
    = (Ok (), self')
    /\ Journal.status self' = Ok (VDict (<["status" := VStr "current"]> ∅)).
Proof.
  destruct (journal_status_keeps_history sample_journal
              (<["status" := VStr "current"]> ∅) sample_clock)
    as (self' & l & _ & Hset & Hget & _).
  { exists ∅. split; [reflexivity | left; reflexivity]. }
  exists self'. split; assumption.
Defined.

(** X8.  For every journal: the setter of [ahead_of_print_bundle]
    succeeds and the getter then returns the value set;
    [remove_ahead_of_print_bundle] then succeeds, after which the getter
    returns the empty string and a second removal raises [DoesNotExist]
    and leaves the journal as it is. *)
Theorem ahead_of_print_bundle_life_cycle (self : Journal.t) (v : string)
    (now : clock) :
  exists linked unlinked,
    Journal.set_ahead_of_print_bundle self v now = (Ok (), linked)
    /\ Journal.ahead_of_print_bundle linked = VStr v
    /\ Journal.remove_ahead_of_print_bundle linked = (Ok (), unlinked)
    /\ Journal.ahead_of_print_bundle unlinked = VStr ""
    /\ Journal.remove_ahead_of_print_bundle unlinked = (Raise DoesNotExist, unlinked).
Proof.
  set (b1 := BundleManifest.set_component (Journal._manifest self) "aop" (VStr v) now).
  assert (Haop : b1 !! "aop" = Some (VStr v)).
  { unfold b1, BundleManifest.set_component.
    rewrite lookup_insert_ne by discriminate. apply lookup_insert_eq. }
  exists (Journal.mk b1), (Journal.mk (delete "aop" b1)).
  split; [reflexivity |].
  split.
  { unfold Journal.ahead_of_print_bundle, BundleManifest.get_component. simpl.
    rewrite Haop. reflexivity. }
  split.
  { unfold Journal.remove_ahead_of_print_bundle, BundleManifest.remove_component.
    simpl. rewrite Haop. reflexivity. }
  split.
  { unfold Journal.ahead_of_print_bundle, BundleManifest.get_component. simpl.
    rewrite lookup_delete_eq. reflexivity. }
  unfold Journal.remove_ahead_of_print_bundle, BundleManifest.remove_component.
  simpl. rewrite lookup_delete_eq. reflexivity.
Qed.

(** X9.  Construction of a journal.  With neither an id nor a manifest,
    or with the empty string and the empty dictionary for them,
    [Journal(...)] raises [AssertionError].  With a manifest that is not
    the empty dictionary, the journal is on that manifest, whatever the
    id.  With an id that is not the empty string and no manifest, or the
    empty dictionary for one, the journal is on a new manifest: it has no
    issue, its title is the empty string, its status has no history, it
    is linked to no bundle ahead of print, which cannot be removed,
    ["updated"] is the reading of the clock, and its metadata can be
    written. *)
Theorem journal_construction (id : string) (manifest : bundle_manifest)
    (now : clock) :
  Journal.init None None now = Raise AssertionError
  /\ Journal.init (Some "") None now = Raise AssertionError
  /\ Journal.init None (Some ∅) now = Raise AssertionError
  /\ Journal.init (Some "") (Some ∅) now = Raise AssertionError
  /\ (manifest <> ∅ ->
      forall id', Journal.init id' (Some manifest) now = Ok (Journal.mk manifest))
  /\ (id <> "" ->
      exists self,
        Journal.init (Some id) None now = Ok self
        /\ Journal.init (Some id) (Some ∅) now = Ok self
        /\ Journal.issues self = Ok (VList [])
        /\ Journal.title self = Ok (VStr "")
        /\ Journal.status_history self = Ok (VList [])
        /\ Journal.ahead_of_print_bundle self = VStr ""
        /\ Journal.remove_ahead_of_print_bundle self = (Raise DoesNotExist, self)
        /\ Journal.updated self = VStr (now 0%nat)
        /\ forall name, metadata_ready name (Journal._manifest self)).
Proof.
  split; [reflexivity |]. split; [reflexivity |]. split; [reflexivity |].
  split; [reflexivity |]. split.
  - intros Hmanifest id'. unfold Journal.init, truthy_dict.
    rewrite bool_decide_eq_false_2 by exact Hmanifest.
    rewrite orb_true_r. reflexivity.
  - intros Hid. exists (Journal.mk (BundleManifest.new id now)).
    assert (Hinit : forall manifest',
               manifest' = None \/ manifest' = Some ∅ ->
               Journal.init (Some id) manifest' now
               = Ok (Journal.mk (BundleManifest.new id now))).
    { intros manifest' Hnone. unfold Journal.init, truthy_str.
      destruct (String.eqb_spec id "") as [? | _]; [contradiction |].
      destruct Hnone as [-> | ->]; reflexivity. }
    split; [apply Hinit; left; reflexivity |].
    split; [apply Hinit; right; reflexivity |].
    repeat split. intros name. apply metadata_ready_new.
Qed.

Lemma journal_construction_witness :
  exists self,
    Journal.init (Some "j1") None sample_clock = Ok self
    /\ Journal.issues self = Ok (VList [])
    /\ Journal.init (Some "j2") (Some sample_bundle) sample_clock
       = Ok (Journal.mk sample_bundle).
Proof.
  destruct (proj2 (proj2 (proj2 (proj2 (proj2
              (journal_construction "j1" sample_bundle sample_clock))))))
    as (self & Hinit & _ & Hissues & _); [discriminate |].
  exists self. split; [exact Hinit |]. split; [exact Hissues |].
  apply (proj1 (proj2 (proj2 (proj2 (proj2
           (journal_construction "j1" sample_bundle sample_clock)))))).
  intros Hempty. apply (f_equal (fun m => m !! "id")) in Hempty. discriminate Hempty.
Defined.

(** ** Versions by index *)

Section by_index.

Context {A : Type}.

Lemma py_index_nonneg (l : list A) (i : Z) :
  0 <= i < Z.of_nat (length l) ->
  exists x, l !! Z.to_nat i = Some x /\ py_index l i = Ok x.
Proof.
  intros Hi. unfold py_index, norm_index.
  destruct (Z.ltb_spec i 0) as [? | _]; [lia |].
  destruct (Z.ltb_spec i 0) as [? | _]; [lia |].
  destruct (Z.leb_spec (Z.of_nat (length l)) i) as [? | _]; [lia |].
  simpl. destruct (lookup_lt_is_Some_2 l (Z.to_nat i)) as [x Hx]; [lia |].
  exists x. rewrite Hx. split; reflexivity.
Qed.

Lemma py_index_negative (l : list A) (i : Z) :
  - Z.of_nat (length l) <= i < 0 ->
  py_index l i = py_index l (i + Z.of_nat (length l)).
Proof.
  intros Hi. unfold py_index.
  assert (Hneg : norm_index (length l) i = i + Z.of_nat (length l)).
  { unfold norm_index. destruct (Z.ltb_spec i 0); [reflexivity | lia]. }
  assert (Hpos : norm_index (length l) (i + Z.of_nat (length l))
                 = i + Z.of_nat (length l)).
  { unfold norm_index.
    destruct (Z.ltb_spec (i + Z.of_nat (length l)) 0); [lia | reflexivity]. }
  rewrite Hneg, Hpos. reflexivity.
Qed.

Lemma py_index_out_of_range (l : list A) (i : Z) :
  i < - Z.of_nat (length l) \/ Z.of_nat (length l) <= i ->
  py_index l i = Raise IndexError.
Proof.
  intros Hi. unfold py_index, norm_index.
  destruct (Z.ltb_spec i 0) as [Hneg | Hpos].
  - destruct (Z.ltb_spec (i + Z.of_nat (length l)) 0) as [_ | ?]; [reflexivity | lia].
  - destruct (Z.ltb_spec i 0) as [? | _]; [lia |].
    destruct (Z.leb_spec (Z.of_nat (length l)) i) as [_ | ?]; [reflexivity | lia].
Qed.

Lemma py_index_app_l (l added : list A) (i : Z) :
  0 <= i < Z.of_nat (length l) ->
  py_index (l ++ added) i = py_index l i.
Proof.
  intros Hi.
  destruct (py_index_nonneg l i Hi) as (x & Hx & ->).
  destruct (py_index_nonneg (l ++ added) i) as (y & Hy & ->).
  { rewrite length_app. lia. }
  rewrite lookup_app_l in Hy by lia. congruence.
Qed.

End by_index.

Section version_by_index.

Import DocumentManifest.

(** X10.  [version(index)] on a document of [n] versions: an index from
    [0] to [n - 1] selects the version at that place and shows each asset
    with the URI of the last entry of its timeline; an index from [-n] to
    [-1] selects what the index [n] greater selects; any other index
    raises [ValueError]. *)
Theorem version_by_index (self : Document.t) (index : Z) :
  let vs := versions (Document._manifest self) in
  let n := Z.of_nat (length vs) in
  (0 <= index < n ->
   exists v, vs !! Z.to_nat index = Some v
             /\ Document.version self index = Ok (latest_view v))
  /\ (- n <= index < 0 ->
      Document.version self index = Document.version self (index + n))
  /\ (index < - n \/ n <= index ->
      Document.version self index = Raise ValueError).
Proof.
  intros vs n. unfold Document.version. fold vs. repeat split.
  - intros Hi. destruct (py_index_nonneg vs index Hi) as (v & Hv & ->).
    exists v. split; [exact Hv | reflexivity].
  - intros Hi. rewrite (py_index_negative vs index Hi). reflexivity.
  - intros Hi. rewrite (py_index_out_of_range vs index Hi). reflexivity.
Qed.

End version_by_index.

Lemma version_by_index_witness :
  Document.version sample_document 0 = Ok (latest_view sample_version)
  /\ Document.version sample_document (-1) = Document.version sample_document 0
  /\ Document.version sample_document 1 = Raise ValueError.
Proof.
  split; [| split].
  - destruct (proj1 (version_by_index sample_document 0)) as (v & Hv & Hcall).
    { simpl. lia. }
    rewrite Hcall. injection Hv as <-. reflexivity.
  - apply (proj1 (proj2 (version_by_index sample_document (-1)))). simpl. lia.
  - apply (proj2 (proj2 (version_by_index sample_document 1))). simpl. lia.
Defined.

(** ** Queries by time *)

Section leading_run.

Context {A : Type} (p : A -> bool).

Lemma takewhile_elem (l : list A) (x : A) :
  x ∈ takewhile p l -> x ∈ l /\ p x = true.
Proof.
  induction l as [| y l IH]; simpl; [intros Hin; inversion Hin |].
  destruct (p y) eqn:Hy; [| intros Hin; inversion Hin].
  intros Hin. apply elem_of_cons in Hin as [-> | Hin].
  - split; [left | exact Hy].
  - destruct (IH Hin) as [Hl Hp]. split; [right; exact Hl | exact Hp].
Qed.

Lemma takewhile_app_false (l added : list A) :
  Forall (fun x => p x = false) added ->
  takewhile p (l ++ added) = takewhile p l.
Proof.
  intros Hadded. induction l as [| y l IH]; simpl.
  - destruct Hadded as [| x added Hx _]; [reflexivity |]. simpl. rewrite Hx.
    reflexivity.
  - destruct (p y); [rewrite IH |]; reflexivity.
Qed.

End leading_run.

Lemma first_max_elem {A} (key : A -> string) (l : list A) (e : A) :
  first_max_of key l e -> e ∈ l.
Proof. intros (l1 & l2 & -> & _). set_solver. Qed.

Section version_at_sound.

Import DocumentManifest.

Lemma _at_time_entry (T : string) (uris : timeline) :
  Document._at_time T uris = ""
  \/ exists t, (t, Document._at_time T uris) ∈ uris /\ String.leb t T = true.
Proof.
  unfold Document._at_time.
  destruct (py_max_first_max fst (takewhile (fun asset => String.leb (fst asset) T) uris))
    as [[_ ->] | ([t u] & -> & Hfirst)]; [left; reflexivity | right].
  apply first_max_elem, takewhile_elem in Hfirst as [Hin Hle].
  exists t. split; assumption.
Qed.

(** X11.  What [version_at] returns bears no greater timestamp than the
    query, in the order the code compares timestamps in: that of strings,
    character by character.  The timestamp of the query was accepted; the
    data URI and the timestamp returned are those of a version of the
    manifest whose timestamp is not greater, as a string, than the
    timestamp the query is resolved at; the asset ids are those of that
    version; and each URI is the empty string or the URI of an entry of
    that asset's timeline whose timestamp is not greater, as a string,
    than that timestamp. *)
Theorem version_at_stamps_not_above_query (self : Document.t) (timestamp : string)
    (r : version_of string) :
  Document.version_at self timestamp = Ok r ->
  match_timestamp_pattern timestamp = true
  /\ exists v,
       v ∈ versions (Document._manifest self)
       /\ data r = data v
       /\ DocumentManifest.timestamp r = DocumentManifest.timestamp v
       /\ String.leb (DocumentManifest.timestamp v) (effective_timestamp timestamp) = true
       /\ dom (assets r) = dom (assets v)
       /\ forall a u,
            assets r !! a = Some u ->
            u = ""
            \/ exists t uris,
                 assets v !! a = Some uris
                 /\ (t, u) ∈ uris
                 /\ String.leb t (effective_timestamp timestamp) = true.
Proof.
  unfold Document.version_at, Document.target_version.
  destruct (match_timestamp_pattern timestamp); [| discriminate].
  fold (effective_timestamp timestamp). set (T := effective_timestamp timestamp).
  simpl.
  destruct (py_max_first_max DocumentManifest.timestamp
              (takewhile (fun version => String.leb (DocumentManifest.timestamp version) T)
                 (versions (Document._manifest self))))
    as [[_ ->] | (v & -> & Hfirst)]; [discriminate |].
  simpl. intros [= <-]. split; [reflexivity |].
  apply first_max_elem, takewhile_elem in Hfirst as [Hin Hle].
  exists v. simpl. repeat split; try assumption.
  - apply dom_fmap_L.
  - intros a u. rewrite lookup_fmap.
    destruct (assets v !! a) as [uris |] eqn:Huris; [| discriminate].
    simpl. intros [= <-].
    destruct (_at_time_entry T uris) as [Hempty | (t & Hin' & Hle')];
      [left; exact Hempty | right].
    exists t, uris. repeat split; assumption.
Qed.

End version_at_sound.

Lemma version_at_stamps_not_above_query_witness :
  exists r v,
    Document.version_at sample_document "2020-05-01T10:30Z" = Ok r
    /\ v ∈ DocumentManifest.versions (Document._manifest sample_document)
    /\ DocumentManifest.data r = DocumentManifest.data v
    /\ String.leb (DocumentManifest.timestamp v) "2020-05-01T10:30Z" = true.
Proof.
  eexists.
  destruct (version_at_stamps_not_above_query sample_document "2020-05-01T10:30Z" _ eq_refl)
    as (_ & v & Hin & Hdata & _ & Hle & _).
  exists v. split; [reflexivity |]. repeat split; assumption.
Defined.

Section timestamp_length.

Lemma digits_length (n : nat) (s r : string) :
  digits n s = Some r -> String.length s = (n + String.length r)%nat.
Proof.
  revert s. induction n as [| n IH]; intros s.
  - intros [= ->]. reflexivity.
  - destruct s as [| c s]; [discriminate |]. cbn [digits].
    destruct (is_digit c); [| discriminate].
    intros Hs. simpl. rewrite (IH s Hs). reflexivity.
Qed.

Lemma lit_length (c : ascii) (s r : string) :
  lit c s = Some r -> String.length s = S (String.length r).
Proof.
  destruct s as [| c' s]; [discriminate |]. simpl.
  destruct (Ascii.eqb c c'); [intros [= ->]; reflexivity | discriminate].
Qed.

Lemma at_end_length (s : string) : at_end s = true -> (String.length s <= 1)%nat.
Proof.
  intros Hend. apply at_end_cases in Hend as [-> | ->]; simpl; lia.
Qed.

Lemma date_prefix_length (s r : string) :
  date_prefix s = Some r -> String.length s = (10 + String.length r)%nat.
Proof.
  unfold date_prefix.
  destruct (digits 4 s) as [s1 |] eqn:H1; [| discriminate]. cbn [mbind option_bind].
  destruct (lit "-" s1) as [s2 |] eqn:H2; [| discriminate]. cbn [mbind option_bind].
  destruct (digits 2 s2) as [s3 |] eqn:H3; [| discriminate]. cbn [mbind option_bind].
  destruct (lit "-" s3) as [s4 |] eqn:H4; [| discriminate]. cbn [mbind option_bind].
  intros H5.
  apply digits_length in H1, H3, H5. apply lit_length in H2, H4. lia.
Qed.

Lemma time_prefix_length (s r : string) :
  time_prefix s = Some r -> String.length s = (6 + String.length r)%nat.
Proof.
  unfold time_prefix.
  destruct (lit "T" s) as [s1 |] eqn:H1; [| discriminate]. cbn [mbind option_bind].
  destruct (digits 2 s1) as [s2 |] eqn:H2; [| discriminate]. cbn [mbind option_bind].
  destruct (lit ":" s2) as [s3 |] eqn:H3; [| discriminate]. cbn [mbind option_bind].
  intros H4.
  apply digits_length in H2, H4. apply lit_length in H1, H3. lia.
Qed.

(** A timestamp the pattern accepts is a date, a date with hours and
    minutes, or a date with hours, minutes and seconds, each with or
    without a line feed behind it. *)
Lemma match_timestamp_pattern_length (s : string) :
  match_timestamp_pattern s = true ->
  String.length s ∈ [10; 11; 17; 18; 20; 21]%nat.
Proof.
  unfold match_timestamp_pattern.
  destruct (date_prefix s) as [rest |] eqn:Hdate; [| discriminate].
  apply date_prefix_length in Hdate.
  intros Hmatch. apply orb_true_iff in Hmatch as [Hend | Htime].
  - apply at_end_cases in Hend as [-> | ->]; rewrite Hdate; simpl; set_solver.
  - destruct (time_prefix rest) as [rest' |] eqn:Hrest; [| discriminate].
    apply time_prefix_length in Hrest.
    apply orb_true_iff in Htime as [Hsec | Hmin].
    + destruct (lit ":" rest') as [s1 |] eqn:H1; [| discriminate].
      cbn [mbind option_bind] in Hsec.
      destruct (digits 2 s1) as [s2 |] eqn:H2; [| discriminate].
      cbn [mbind option_bind] in Hsec.
      destruct (lit "Z" s2) as [s3 |] eqn:H3; [| discriminate].
      simpl in Hsec.
      apply lit_length in H1, H3. apply digits_length in H2.
      apply at_end_cases in Hsec as [-> | ->]; simpl in H3;
        [assert (Hs : String.length s = 20%nat) by lia
        | assert (Hs : String.length s = 21%nat) by lia];
        rewrite Hs; set_solver.
    + destruct (lit "Z" rest') as [s1 |] eqn:H1; [| discriminate].
      simpl in Hmin. apply lit_length in H1.
      apply at_end_cases in Hmin as [-> | ->]; simpl in H1;
        [assert (Hs : String.length s = 17%nat) by lia
        | assert (Hs : String.length s = 18%nat) by lia];
        rewrite Hs; set_solver.
Qed.

(** X12.  [version_at] raises nothing but [ValueError], and raises it
    for every timestamp on a document without a version, and on every
    document for a timestamp whose length is none of 10, 11, 17, 18, 20
    and 21: so for every timestamp that bears a fraction of a second. *)
Theorem version_at_raises_value_error (self : Document.t) (timestamp : string) :
  (forall e, Document.version_at self timestamp = Raise e -> e = ValueError)
  /\ (DocumentManifest.versions (Document._manifest self) = [] ->
      Document.version_at self timestamp = Raise ValueError)
  /\ (String.length timestamp ∉ [10; 11; 17; 18; 20; 21]%nat ->
      Document.version_at self timestamp = Raise ValueError).
Proof.
  unfold Document.version_at, Document.target_version.
  destruct (match_timestamp_pattern timestamp) eqn:Hmatch; simpl.
  - set (T := if match_date_pattern timestamp then _ else _).
    split; [| split].
    + intros e.
      destruct (py_max_first_max DocumentManifest.timestamp
                  (takewhile
                     (fun version => String.leb (DocumentManifest.timestamp version) T)
                     (DocumentManifest.versions (Document._manifest self))))
        as [[_ ->] | (v & -> & _)]; simpl; congruence.
    + intros ->. reflexivity.
    + intros Hlength. exfalso. apply Hlength.
      apply match_timestamp_pattern_length. exact Hmatch.
  - split; [intros e; congruence |]. split; reflexivity.
Qed.

End timestamp_length.

Lemma version_at_raises_value_error_witness :
  (String.length "2020-05-01T10:00:00.000000Z" ∉ [10; 11; 17; 18; 20; 21]%nat)
  /\ Document.version_at sample_document "2020-05-01T10:00:00.000000Z"
     = Raise ValueError.
Proof.
  assert (Hlength : String.length "2020-05-01T10:00:00.000000Z"
                    ∉ [10; 11; 17; 18; 20; 21]%nat) by compute_done.
  split; [exact Hlength |].
  exact (proj2 (proj2 (version_at_raises_value_error sample_document
                         "2020-05-01T10:00:00.000000Z")) Hlength).
Defined.

(** ** New versions *)

Section new_versions.

Import DocumentManifest.

Lemma odict_get_of_keys_full (f : string -> string) (keys : list string)
    (k : string) :
  odict_get (odict_of_keys f keys) k
  = if decide (k ∈ keys) then Some (f k) else None.
Proof.
  destruct (decide (k ∈ keys)) as [Hin | Hout];
    [apply odict_get_of_keys; exact Hin |].
  unfold odict_of_keys.
  assert (Hgen : forall d,
             odict_get (foldl (fun d k => odict_set d k (f k)) d keys) k
             = odict_get d k).
  { induction keys as [| k0 keys IH]; intros d; cbn [foldl]; [reflexivity |].
    rewrite IH by (intros Hin; apply Hout; right; exact Hin).
    rewrite odict_get_set, decide_False; [reflexivity |].
    intros ->. apply Hout. left. }
  rewrite Hgen. reflexivity.
Qed.

(** X13.  [add_version] always returns the versions there were followed
    by one new version, which bears the data URI given and the first
    reading of the clock, and whose asset ids are the ids given.  Given
    as a list, every id has an empty timeline.  Given as a mapping, the
    timeline of an id ends in its URI, and is empty when that URI is the
    empty string. *)
Theorem add_version_new_version (m : document_manifest) (data_uri : string)
    (assets : asset_refs) (now : clock) :
  exists v',
    add_version m data_uri assets now = Ok (mk (id m) (versions m ++ [v']))
    /\ data v' = data_uri
    /\ timestamp v' = now 0%nat
    /\ (forall k, is_Some (DocumentManifest.assets v' !! k) <-> k ∈ asset_ids assets)
    /\ match assets with
       | AssetList ids =>
           forall k, k ∈ ids -> DocumentManifest.assets v' !! k = Some []
       | AssetDict d =>
           forall k u,
             odict_get d k = Some u ->
             exists uris',
               DocumentManifest.assets v' !! k = Some uris'
               /\ Document._latest uris' = u
               /\ (u = "" -> uris' = [])
       end.
Proof.
  unfold add_version.
  set (version := _new_version data_uri assets now).
  assert (Hnew : forall k,
             DocumentManifest.assets version !! k
             = if decide (k ∈ asset_ids assets) then Some [] else None).
  { intros k. unfold version, _new_version. simpl. apply new_assets_lookup. }
  assert (Hids : forall k,
             is_Some (DocumentManifest.assets version !! k) <-> k ∈ asset_ids assets).
  { intros k. rewrite Hnew. destruct (decide (k ∈ asset_ids assets)); split;
      try tauto; [eauto | intros [? ?]; discriminate]. }
  destruct assets as [ids | d].
  - exists version. split; [reflexivity |]. split; [reflexivity |].
    split; [reflexivity |]. split; [exact Hids |].
    intros k Hk. rewrite Hnew. simpl. rewrite decide_True by exact Hk. reflexivity.
  - destruct (bind_assets_spec d now (fst <$> d) 1 version)
      as (v' & Hrun & Hext & Hlatest).
    { intros k Hk. apply odict_get_key. exact Hk. }
    { intros k Hk. apply Hids. exact Hk. }
    exists v'. rewrite Hrun. split; [reflexivity |].
    destruct Hext as (Hdata & Hstamp & Hdom & Hkept).
    split; [exact Hdata |]. split; [exact Hstamp |]. split.
    { intros k. rewrite <- Hids, <- !elem_of_dom, Hdom. reflexivity. }
    intros k u Hu.
    assert (Hk : k ∈ fst <$> d) by (apply odict_get_key; eauto).
    assert (Hempty : DocumentManifest.assets version !! k = Some []).
    { rewrite Hnew. simpl. rewrite decide_True by exact Hk. reflexivity. }
    destruct (Hkept k [] Hempty) as (uris' & Hk' & _).
    exists uris'. split; [exact Hk' |].
    destruct (Hlatest k uris' Hk') as [Hbind Hkeep].
    destruct (decide (u = "")) as [-> | Hne].
    + specialize (Hkeep (or_intror Hu)). rewrite Hempty in Hkeep.
      injection Hkeep as <-. split; reflexivity.
    + split; [exact (Hbind Hk u Hu Hne) | intros ?; contradiction].
Qed.

Lemma latest_data_guard (self : Document.t) :
  (exists v, last (versions (Document._manifest self)) = Some v
             /\ Document.version self (-1) = Ok (latest_view v))
  \/ (versions (Document._manifest self) = []
      /\ Document.version self (-1) = Raise ValueError).
Proof.
  destruct (last (versions (Document._manifest self))) as [v |] eqn:Hlast.
  - left. exists v. split; [reflexivity | apply version_latest; exact Hlast].
  - right. apply last_None in Hlast. split; [exact Hlast | apply version_none; exact Hlast].
Qed.

(** X14.  When the data URL is not that of the latest version (nor the
    empty string on a document without a version) and the getter returns
    asset ids, [new_version] succeeds, and [version()] then shows the new
    version: the data URL, the first reading of the clock, each id the
    getter found bound to what the latest version bound it to, or to the
    empty string, and no other asset. *)
Theorem new_version_links_every_asset (self : Document.t) (data_url : string)
    (assets_getter : string -> result (list string)) (keys : list string)
    (now : clock) :
  (forall v, last (versions (Document._manifest self)) = Some v ->
             data v <> data_url) ->
  (versions (Document._manifest self) = [] -> data_url <> "") ->
  assets_getter data_url = Ok keys ->
  exists self' prev r',
    Document.new_version self data_url assets_getter now = (Ok (), self')
    /\ length (versions (Document._manifest self'))
       = S (length (versions (Document._manifest self)))
    /\ Document.latest_assets self = Ok prev
    /\ Document.version self' (-1) = Ok r'
    /\ data r' = data_url
    /\ timestamp r' = now 0%nat
    /\ forall k,
         assets r' !! k
         = if decide (k ∈ keys) then Some (default "" (prev !! k)) else None.
Proof.
  intros Hother Hnonempty Hfetch.
  assert (Hguard : exists latest_data prev,
             match Document.version self (-1) with
             | Ok latest_version => Ok (data latest_version)
             | Raise ValueError => Ok ""
             | Raise e => Raise e
             end = Ok latest_data
             /\ latest_data <> data_url
             /\ Document.latest_assets self = Ok prev).
  { unfold Document.latest_assets.
    destruct (latest_data_guard self) as [(v & Hlast & ->) | [Hnil ->]].
    - exists (data v), (Document._latest <$> DocumentManifest.assets v).
      repeat split. apply Hother. exact Hlast.
    - exists "", ∅. repeat split. intros Heq. apply (Hnonempty Hnil). congruence. }
  destruct Hguard as (latest_data & prev & Hdata & Hne & Hprev).
  set (f := fun asset_key => default "" (prev !! asset_key)).
  set (d := odict_of_keys f keys).
  destruct (add_version_new_version (Document._manifest self) data_url (AssetDict d) now)
    as (v' & Hadd & Hdata' & Hstamp' & Hids & Hlinked).
  exists (Document.mk (mk (id (Document._manifest self))
                         (versions (Document._manifest self) ++ [v']))).
  exists prev, (latest_view v').
  split; [| split; [| split; [| split; [| split; [| split]]]]].
  - unfold Document.new_version, Document._link_assets.
    rewrite Hdata, Hprev. simpl.
    destruct (String.eqb_spec latest_data data_url) as [? | _]; [contradiction |].
    rewrite Hfetch. simpl. fold f. fold d. rewrite Hadd. reflexivity.
  - simpl. rewrite length_app. simpl. lia.
  - exact Hprev.
  - apply version_latest. simpl. apply last_snoc.
  - exact Hdata'.
  - exact Hstamp'.
  - intros k. simpl. rewrite lookup_fmap.
    pose proof (odict_get_of_keys_full f keys k) as Hget. fold d in Hget.
    destruct (decide (k ∈ keys)) as [Hin | Hout].
    + destruct (Hlinked k (f k) Hget) as (uris' & -> & Hlatest & _).
      simpl. rewrite Hlatest. reflexivity.
    + destruct (DocumentManifest.assets v' !! k) as [uris |] eqn:Hk; [| reflexivity].
      exfalso. assert (Hsome : k ∈ asset_ids (AssetDict d)) by (apply Hids; eauto).
      simpl in Hsome. apply odict_get_key in Hsome as [u Hu].
      rewrite Hget in Hu. discriminate.
Qed.

(** X15.  What makes [new_version] fail leaves the document as it was:
    on a document without a version the empty data URL raises
    [VersionAlreadySet], the latest version being taken to have the empty
    string for its data; and when the data URL passes that test, the
    exception the getter raises is raised as it is. *)
Theorem new_version_failures (self : Document.t) (data_url : string)
    (assets_getter : string -> result (list string)) (now : clock) :
  (versions (Document._manifest self) = [] ->
   Document.new_version self "" assets_getter now = (Raise VersionAlreadySet, self))
  /\ (forall e,
        (forall v, last (versions (Document._manifest self)) = Some v ->
                   data v <> data_url) ->
        (versions (Document._manifest self) = [] -> data_url <> "") ->
        assets_getter data_url = Raise e ->
        Document.new_version self data_url assets_getter now = (Raise e, self)).
Proof.
  split.
  - intros Hnil. unfold Document.new_version.
    rewrite (version_none self Hnil). reflexivity.
  - intros e Hother Hnonempty Hfetch. unfold Document.new_version.
    destruct (latest_data_guard self) as [(v & Hlast & ->) | [Hnil ->]]; simpl.
    + destruct (String.eqb_spec (data v) data_url) as [Heq | _];
        [destruct (Hother v Hlast Heq) |].
      rewrite Hfetch. reflexivity.
    + destruct data_url as [| c data_url];
        [destruct (Hnonempty Hnil eq_refl) |].
      rewrite Hfetch. reflexivity.
Qed.

End new_versions.

Lemma add_version_new_version_witness :
  exists v' uris',
    DocumentManifest.add_version (Document._manifest sample_document)
      "http://x/v2.xml" (AssetDict [("fig1", "http://x/fig1.png"); ("fig2", "")])
      sample_clock
    = Ok (DocumentManifest.mk "doc" [sample_version; v'])
    /\ DocumentManifest.assets v' !! "fig1" = Some uris'
    /\ Document._latest uris' = "http://x/fig1.png".
Proof.
  destruct (add_version_new_version (Document._manifest sample_document)
              "http://x/v2.xml"
              (AssetDict [("fig1", "http://x/fig1.png"); ("fig2", "")]) sample_clock)
    as (v' & Hadd & _ & _ & _ & Hlinked).
  destruct (Hlinked "fig1" "http://x/fig1.png" eq_refl) as (uris' & Huris & Hlatest & _).
  exists v', uris'. split; [exact Hadd |]. split; assumption.
Defined.

Lemma new_version_links_every_asset_witness :
  exists self' r',
    Document.new_version sample_document "http://x/v2.xml" sample_getter sample_clock
    = (Ok (), self')
    /\ Document.version self' (-1) = Ok r'
    /\ DocumentManifest.data r' = "http://x/v2.xml".
Proof.
  destruct (new_version_links_every_asset sample_document "http://x/v2.xml"
              sample_getter ["fig1"] sample_clock)
    as (self' & prev & r' & Hcall & _ & _ & Hversion & Hdata & _).
  - intros v [= <-]. discriminate.
  - discriminate.
  - reflexivity.
  - exists self', r'. split; [exact Hcall |]. split; assumption.
Defined.

Lemma new_version_failures_witness :
  Document.new_version (Document.mk (DocumentManifest.new "doc")) "" sample_getter sample_clock
  = (Raise VersionAlreadySet, Document.mk (DocumentManifest.new "doc"))
  /\ Document.new_version sample_document "http://x/v2.xml"
       (fun _ => Raise RetryableError) sample_clock
     = (Raise RetryableError, sample_document).
Proof.
  split.
  - apply (proj1 (new_version_failures (Document.mk (DocumentManifest.new "doc")) ""
                    sample_getter sample_clock)).
    reflexivity.
  - apply (proj2 (new_version_failures sample_document "http://x/v2.xml"
                    (fun _ => Raise RetryableError) sample_clock)).
    + intros v [= <-]. discriminate.
    + discriminate.
    + reflexivity.
Defined.

(** ** New versions of an asset *)

Section asset_versions.

Import DocumentManifest.

(** X16.  On a document whose latest version has the asset [a], bound to
    another URI than [u] or not bound, [new_asset_version] of [a] with [u]
    succeeds and adds no version; [version()] then shows the latest
    version with its data URI and its timestamp, [a] bound to [u] and
    every other asset as it was; and the same call made again raises
    [VersionAlreadySet] and changes nothing. *)
Theorem new_asset_version_rebinds (self : Document.t) (v : document_version)
    (a u : string) (uris : timeline) (now : clock) :
  last (versions (Document._manifest self)) = Some v ->
  assets v !! a = Some uris ->
  Document._latest uris <> u ->
  exists self' r',
    Document.new_asset_version self a u now = (Ok (), self')
    /\ length (versions (Document._manifest self'))
       = length (versions (Document._manifest self))
    /\ Document.version self' (-1) = Ok r'
    /\ data r' = data v
    /\ timestamp r' = timestamp v
    /\ assets r' = <[a := u]> (Document._latest <$> assets v)
    /\ forall now',
         Document.new_asset_version self' a u now' = (Raise VersionAlreadySet, self').
Proof.
  intros Hlast Ha Hother.
  pose proof Hlast as Hsplit. apply last_Some in Hsplit as [vs Hvs].
  set (v' := mk_version (data v) (<[a := uris ++ [(now 0%nat, u)]]> (assets v))
               (timestamp v)).
  set (m' := mk (id (Document._manifest self)) (vs ++ [v'])).
  assert (Hadd : add_asset_version (Document._manifest self) a u now = Ok m').
  { unfold add_asset_version. rewrite Hvs, py_index_last. simpl.
    unfold _new_asset_version. rewrite Ha. simpl.
    rewrite py_setitem_last. reflexivity. }
  assert (Hlast' : last (versions (Document._manifest (Document.mk m'))) = Some v')
    by apply last_snoc.
  assert (Hview : Document._latest <$> assets v'
                  = <[a := u]> (Document._latest <$> assets v)).
  { unfold v'. simpl. rewrite fmap_insert, _latest_snoc. reflexivity. }
  exists (Document.mk m'), (latest_view v').
  split; [| split; [| split; [| split; [| split; [| split]]]]].
  - unfold Document.new_asset_version.
    rewrite (latest_assets_latest self v Hlast). simpl.
    rewrite lookup_fmap, Ha. simpl.
    rewrite bool_decide_eq_false_2 by congruence.
    rewrite Hadd. reflexivity.
  - simpl. rewrite Hvs, !length_app. reflexivity.
  - apply version_latest. exact Hlast'.
  - reflexivity.
  - reflexivity.
  - exact Hview.
  - intros now'. unfold Document.new_asset_version.
    rewrite (latest_assets_latest _ v' Hlast'). cbn [mbind result_bind].
    rewrite Hview, lookup_insert_eq.
    rewrite bool_decide_eq_true_2 by reflexivity. reflexivity.
Qed.

End asset_versions.

Lemma new_asset_version_rebinds_witness :
  exists self' r',
    Document.new_asset_version sample_document "fig1" "http://x/fig1-v2.png"
      sample_clock = (Ok (), self')
    /\ Document.version self' (-1) = Ok r'
    /\ DocumentManifest.assets r' !! "fig1" = Some "http://x/fig1-v2.png".
Proof.
  destruct (new_asset_version_rebinds sample_document sample_version "fig1"
              "http://x/fig1-v2.png"
              [("2020-05-01T10:00:00.000000Z", "http://x/fig1.png")] sample_clock)
    as (self' & r' & Hcall & _ & Hversion & _ & _ & Hassets & _).
  - reflexivity.
  - reflexivity.
  - discriminate.
  - exists self', r'. split; [exact Hcall |]. split; [exact Hversion |].
    rewrite Hassets. apply lookup_insert_eq.
Defined.

(** ** Queries below the clock of an operation *)

Section stability.

Import DocumentManifest.

Variable T : string.

Lemma same_at_refl (v : document_version) : same_at T v v.
Proof. repeat split. Qed.

Lemma takewhile_same_at (l l' : list document_version) :
  Forall2 (same_at T) l l' ->
  Forall2 (same_at T)
    (takewhile (fun version => String.leb (timestamp version) T) l)
    (takewhile (fun version => String.leb (timestamp version) T) l').
Proof.
  induction 1 as [| v v' l l' Hv Hl IH]; simpl; [constructor |].
  destruct Hv as (Hdata & Hstamp & Hassets). rewrite Hstamp.
  destruct (String.leb (timestamp v) T); constructor; [| exact IH].
  repeat split; assumption.
Qed.

Lemma max_step_same_at (l l' : list document_version) :
  Forall2 (same_at T) l l' ->
  forall x x', same_at T x x' ->
               same_at T (foldl (max_step timestamp) x l)
                 (foldl (max_step timestamp) x' l').
Proof.
  induction 1 as [| v v' l l' Hv Hl IH]; intros x x' Hx; simpl; [exact Hx |].
  apply IH. unfold max_step.
  destruct Hx as (Hdx & Hsx & Hax). destruct Hv as (Hdv & Hsv & Hav).
  rewrite Hsx, Hsv.
  destruct (String.ltb (timestamp x) (timestamp v)); repeat split; assumption.
Qed.

Lemma target_version_same_at (l kept added : list document_version) :
  Forall2 (same_at T) l kept ->
  Forall (fun version => String.leb (timestamp version) T = false) added ->
  match Document.target_version l T, Document.target_version (kept ++ added) T with
  | Ok v, Ok v' => same_at T v v'
  | Raise e, Raise e' => e = e'
  | _, _ => False
  end.
Proof.
  intros Hkept Hadded. unfold Document.target_version.
  rewrite (takewhile_app_false _ kept added Hadded).
  pose proof (takewhile_same_at l kept Hkept) as Hrun.
  destruct Hrun as [| v v' run run' Hv Hrun]; simpl; [reflexivity |].
  apply max_step_same_at; assumption.
Qed.

Lemma version_at_same (self self' : Document.t) (timestamp : string)
    (kept added : list document_version) :
  effective_timestamp timestamp = T ->
  versions (Document._manifest self') = kept ++ added ->
  Forall2 (same_at T) (versions (Document._manifest self)) kept ->
  Forall (fun version => String.leb (DocumentManifest.timestamp version) T = false)
    added ->
  Document.version_at self' timestamp = Document.version_at self timestamp.
Proof.
  intros HT Hversions Hkept Hadded. unfold Document.version_at.
  destruct (match_timestamp_pattern timestamp); [| reflexivity]. simpl.
  fold (effective_timestamp timestamp). rewrite HT, Hversions.
  pose proof (target_version_same_at _ kept added Hkept Hadded) as Hsame.
  destruct (Document.target_version (versions (Document._manifest self)) T)
    as [v | e];
    destruct (Document.target_version (kept ++ added) T) as [v' | e'];
    try contradiction; simpl.
  - destruct Hsame as (-> & -> & ->). reflexivity.
  - congruence.
Qed.

Lemma Forall2_same_at_refl (l : list document_version) : Forall2 (same_at T) l l.
Proof. induction l; constructor; [apply same_at_refl | assumption]. Qed.

End stability.

Section stability_of_operations.

Import DocumentManifest.

Lemma new_version_ok (self self' : Document.t) (data_url : string)
    (assets_getter : string -> result (list string)) (now : clock) :
  Document.new_version self data_url assets_getter now = (Ok (), self') ->
  exists v',
    timestamp v' = now 0%nat
    /\ versions (Document._manifest self')
       = versions (Document._manifest self) ++ [v'].
Proof.
  unfold Document.new_version.
  destruct (match Document.version self (-1) with
            | Ok latest_version => Ok (data latest_version)
            | Raise ValueError => Ok ""
            | Raise e => Raise e
            end) as [latest_data | e]; simpl; [| discriminate].
  destruct (String.eqb latest_data data_url); [discriminate |].
  destruct (assets_getter data_url) as [keys | e]; simpl; [| discriminate].
  destruct (Document._link_assets self keys) as [d | e]; simpl; [| discriminate].
  destruct (add_version_new_version (Document._manifest self) data_url (AssetDict d) now)
    as (v' & -> & _ & Hstamp & _).
  simpl. intros [= <-]. exists v'. split; [exact Hstamp | reflexivity].
Qed.

Lemma new_asset_version_ok (self self' : Document.t) (a u : string) (now : clock) :
  Document.new_asset_version self a u now = (Ok (), self') ->
  exists vs latest uris,
    versions (Document._manifest self) = vs ++ [latest]
    /\ assets latest !! a = Some uris
    /\ versions (Document._manifest self')
       = vs ++ [mk_version (data latest)
                  (<[a := uris ++ [(now 0%nat, u)]]> (assets latest))
                  (timestamp latest)].
Proof.
  unfold Document.new_asset_version.
  destruct (Document.latest_assets self) as [latest_assets | e]; simpl;
    [| discriminate].
  destruct (bool_decide _); [discriminate |].
  destruct (add_asset_version (Document._manifest self) a u now) as [m' | e] eqn:Hadd.
  2:{ destruct e; discriminate. }
  simpl. intros [= <-].
  apply add_asset_version_ok in Hadd as (vs & latest & latest' & Hvs & Hnew & ->).
  apply _new_asset_version_ok in Hnew as (uris & Huris & ->).
  exists vs, latest, uris. repeat split; assumption.
Qed.

(** X17.  A query below the clock of an operation is answered after the
    operation as it was before.  When the timestamp a query is resolved
    at is less, in the order of strings that the code compares
    timestamps in, than the first reading the clock gives to
    [new_asset_version] or to [new_version], and the operation succeeds,
    [version_at] returns on the document that results what it returned
    on the document there was. *)
Theorem queries_below_the_clock_are_stable (self self' : Document.t) (timestamp : string)
    (now : clock) :
  String.ltb (effective_timestamp timestamp) (now 0%nat) = true ->
  (forall a u,
      Document.new_asset_version self a u now = (Ok (), self') ->
      Document.version_at self' timestamp = Document.version_at self timestamp)
  /\ (forall data_url assets_getter,
        Document.new_version self data_url assets_getter now = (Ok (), self') ->
        Document.version_at self' timestamp = Document.version_at self timestamp).
Proof.
  intros Hearlier. rewrite ltb_negb_leb in Hearlier.
  apply negb_true_iff in Hearlier.
  set (T := effective_timestamp timestamp) in *.
  split.
  - intros a u Hcall.
    apply new_asset_version_ok in Hcall as (vs & latest & uris & Hvs & Huris & Hvs').
    apply (version_at_same T self self' timestamp
             (vs ++ [mk_version (data latest)
                       (<[a := uris ++ [(now 0%nat, u)]]> (assets latest))
                       (DocumentManifest.timestamp latest)]) []);
      [reflexivity | rewrite app_nil_r; exact Hvs' | | constructor].
    rewrite Hvs. apply Forall2_app; [apply Forall2_same_at_refl |].
    constructor; [| constructor].
    split; [reflexivity |]. split; [reflexivity |]. simpl.
    rewrite fmap_insert.
    assert (Hsame : Document._at_time T (uris ++ [(now 0%nat, u)])
                    = Document._at_time T uris).
    { unfold Document._at_time. rewrite takewhile_app_false; [reflexivity |].
      constructor; [exact Hearlier | constructor]. }
    rewrite Hsame. apply insert_id. rewrite lookup_fmap, Huris. reflexivity.
  - intros data_url assets_getter Hcall.
    apply new_version_ok in Hcall as (v' & Hstamp & Hvs').
    apply (version_at_same T self self' timestamp
             (versions (Document._manifest self)) [v']);
      [reflexivity | exact Hvs' | apply Forall2_same_at_refl |].
    constructor; [rewrite Hstamp; exact Hearlier | constructor].
Qed.

(** X18.  After a [new_version] that succeeds, every version there was
    is shown by [version] at the index it had from the start, and from
    the end at the index one lower. *)
Theorem new_version_keeps_indices (self self' : Document.t) (data_url : string)
    (assets_getter : string -> result (list string)) (now : clock) (index : Z) :
  Document.new_version self data_url assets_getter now = (Ok (), self') ->
  let n := Z.of_nat (length (versions (Document._manifest self))) in
  (0 <= index < n -> Document.version self' index = Document.version self index)
  /\ (- n <= index < 0 ->
      Document.version self' (index - 1) = Document.version self index).
Proof.
  intros Hcall n.
  apply new_version_ok in Hcall as (v' & _ & Hvs').
  unfold Document.version. rewrite Hvs'. fold n. split; intros Hi.
  - rewrite py_index_app_l by exact Hi. reflexivity.
  - rewrite (py_index_negative (versions (Document._manifest self)) index Hi).
    rewrite (py_index_negative (_ ++ [v']) (index - 1))
      by (rewrite length_app; simpl; fold n; lia).
    replace (index - 1 + Z.of_nat (length (versions (Document._manifest self) ++ [v'])))
      with (index + n) by (rewrite length_app; simpl; unfold n; lia).
    rewrite py_index_app_l by (fold n; lia). reflexivity.
Qed.

End stability_of_operations.

Lemma queries_below_the_clock_are_stable_witness :
  exists self',
    Document.new_asset_version sample_document "fig1" "http://x/fig1-v2.png"
      sample_clock = (Ok (), self')
    /\ Document.version_at self' "2020-05-01"
       = Document.version_at sample_document "2020-05-01".
Proof.
  eexists. split; [reflexivity |].
  apply (proj1 (queries_below_the_clock_are_stable sample_document _ "2020-05-01"
                  sample_clock eq_refl) "fig1" "http://x/fig1-v2.png").
  reflexivity.
Defined.

Lemma new_version_keeps_indices_witness :
  exists self',
    Document.new_version sample_document "http://x/v2.xml" sample_getter sample_clock
    = (Ok (), self')
    /\ Document.version self' 0 = Document.version sample_document 0
    /\ Document.version self' (-2) = Document.version sample_document (-1).
Proof.
  eexists. split; [reflexivity |].
  split.
  - apply (proj1 (new_version_keeps_indices sample_document _ "http://x/v2.xml"
                    sample_getter sample_clock 0 eq_refl)).
    simpl. lia.
  - apply (proj2 (new_version_keeps_indices sample_document _ "http://x/v2.xml"
                    sample_getter sample_clock (-1) eq_refl)).
    simpl. lia.
Defined.

(** ** The data of a journal *)

Section journal_data.

Lemma latest_value_snoc (l : list value) (ts : string) (v : value) :
  Journal.latest_value (VList (l ++ [VList [VStr ts; v]])) = Some v.
Proof.
  unfold Journal.latest_value. cbn [py_getitem mbind result_bind].
  rewrite py_index_last. reflexivity.
Qed.

Lemma journal_data_some (self : Journal.t) (d : bundle_manifest) :
  Journal.data self = Some d ->
  exists md,
    Journal._manifest self !! "metadata" = Some (VDict md)
    /\ map_Forall (fun _ history => is_Some (Journal.latest_value history)) md
    /\ d = <["metadata" := VDict (omap Journal.latest_value md)]> (Journal._manifest self).
Proof.
  unfold Journal.data.
  destruct (Journal._manifest self !! "metadata") as [[s | l | md] |]; try discriminate.
  destruct (bool_decide _) eqn:Hall; [| discriminate].
  apply bool_decide_eq_true_1 in Hall.
  intros [= <-]. exists md. repeat split. exact Hall.
Qed.

(** X19.  [data()] of a journal made from an id alone is its manifest.
    And on a
    journal of which [data()] returns and whose field [name] can be
    written: after [set_metadata] of [name], [data()] returns again, and
    shows under ["metadata"] the value just set for [name] and for every
    other field the value it showed; ["updated"] is the reading of the
    clock and the other keys are as they were. *)
Theorem journal_data_shows_latest_values (self : Journal.t) (name : string)
    (v : value) (now : clock) (d : bundle_manifest) :
  (forall id now0 self0,
      Journal.init (Some id) None now0 = Ok self0 ->
      Journal.data self0 = Some (Journal._manifest self0))
  /\ (metadata_ready name (Journal._manifest self) ->
      Journal.data self = Some d ->
      exists shown b' d',
        d !! "metadata" = Some (VDict shown)
        /\ BundleManifest.set_metadata (Journal._manifest self) name v now = Ok b'
        /\ Journal.data (Journal.mk b') = Some d'
        /\ d' !! "metadata" = Some (VDict (<[name := v]> shown))
        /\ d' !! "updated" = Some (VStr (now 0%nat))
        /\ forall k, k <> "metadata" -> k <> "updated" -> d' !! k = d !! k).
Proof.
  split.
  { intros id now0 self0. unfold Journal.init, truthy_str. simpl.
    destruct (String.eqb id ""); simpl; [discriminate |].
    intros [= <-]. reflexivity. }
  intros Hready Hdata.
  apply journal_data_some in Hdata as (md & Hmd & Hall & ->).
  destruct (metadata_ready_history (Journal._manifest self) name Hready)
    as (md0 & l & Hmd0 & Hname & _).
  rewrite Hmd in Hmd0. injection Hmd0 as <-.
  pose proof (set_metadata_written (Journal._manifest self) name v now md l Hmd Hname)
    as Hset.
  set (history := VList (l ++ [VList [VStr (now 0%nat); v]])) in *.
  set (b' := <["updated" := VStr (now 0%nat)]>
               (<["metadata" := VDict (<[name := history]> md)]>
                  (Journal._manifest self))) in *.
  assert (Hmd' : b' !! "metadata" = Some (VDict (<[name := history]> md))).
  { unfold b'. rewrite lookup_insert_ne by discriminate. apply lookup_insert_eq. }
  assert (Hall' : map_Forall (fun _ h => is_Some (Journal.latest_value h))
                    (<[name := history]> md)).
  { apply map_Forall_insert_2; [| exact Hall].
    unfold history. rewrite latest_value_snoc. eauto. }
  exists (omap Journal.latest_value md), b'.
  exists (<["metadata" := VDict (omap Journal.latest_value (<[name := history]> md))]> b').
  split; [apply lookup_insert_eq |]. split; [exact Hset |]. split.
  { unfold Journal.data. simpl. rewrite Hmd'.
    rewrite bool_decide_eq_true_2 by exact Hall'. reflexivity. }
  split.
  { rewrite lookup_insert_eq. f_equal. f_equal.
    apply omap_insert_Some. apply latest_value_snoc. }
  split.
  { rewrite lookup_insert_ne by discriminate. apply lookup_insert_eq. }
  intros k Hk1 Hk2. unfold b'. rewrite !lookup_insert_ne by congruence. reflexivity.
Qed.

End journal_data.

Lemma journal_data_shows_latest_values_witness :
  exists b' d',
    BundleManifest.set_metadata (Journal._manifest sample_journal) "title"
      (VStr "Revista") sample_clock = Ok b'
    /\ Journal.data (Journal.mk b') = Some d'
    /\ d' !! "metadata" = Some (VDict (<["title" := VStr "Revista"]> ∅)).
Proof.
  destruct (proj2 (journal_data_shows_latest_values sample_journal "title"
                     (VStr "Revista") sample_clock
                     (<["metadata" := VDict ∅]> (Journal._manifest sample_journal))))
    as (shown & b' & d' & Hshown & Hset & Hdata & Hmeta & _).
  - exists ∅. split; [reflexivity | left; reflexivity].
  - reflexivity.
  - exists b', d'. split; [exact Hset |]. split; [exact Hdata |].
    rewrite Hmeta. rewrite lookup_insert_eq in Hshown. injection Hshown as <-.
    reflexivity.
Defined.

(** ** Inserting among the items *)

(** X20.  On a bundle whose items are the strings [l]: [insert_item] of
    an item of [l] raises [AlreadyExists] at whatever index, and
    [insert_document] and [insert_issue] then leave the aggregate as it
    was; [insert_item] of any other item, at an index that fits
    [ssize_t], puts it between two parts of [l], so that the items there
    were keep their order, and at an index that does not fit raises
    [OverflowError]. *)
Theorem insert_item_keeps_order (b : bundle_manifest) (l : list string)
    (index : Z) (item : string) (now : clock) :
  items_are b l ->
  (item ∈ l ->
   BundleManifest.insert_item b index item now = Raise AlreadyExists
   /\ DocumentsBundle.insert_document (DocumentsBundle.mk b) index item now
      = (Raise AlreadyExists, DocumentsBundle.mk b)
   /\ Journal.insert_issue (Journal.mk b) index item now
      = (Raise AlreadyExists, Journal.mk b))
  /\ (item ∉ l ->
      ssize_t_min <= index <= ssize_t_max ->
      exists b' l1 l2,
        BundleManifest.insert_item b index item now = Ok b'
        /\ l = l1 ++ l2
        /\ items_are b' (l1 ++ item :: l2))
  /\ (item ∉ l ->
      index < ssize_t_min \/ ssize_t_max < index ->
      BundleManifest.insert_item b index item now = Raise OverflowError).
Proof.
  intros Hitems. split; [| split].
  - intros Hin.
    assert (Hcall : BundleManifest.insert_item b index item now = Raise AlreadyExists).
    { unfold BundleManifest.insert_item. rewrite Hitems, str_in_items.
      rewrite bool_decide_eq_true_2 by exact Hin. reflexivity. }
    split; [exact Hcall |].
    unfold DocumentsBundle.insert_document, Journal.insert_issue. simpl.
    rewrite Hcall. split; reflexivity.
  - intros Hfresh Hfits.
    destruct (py_insert_fits l index item Hfits) as (l1 & l2 & Hl & Hinsert).
    exists (with_items b now (l1 ++ item :: l2)), l1, l2.
    split; [rewrite (insert_item_fresh b l now Hitems index item Hfresh), Hinsert;
            reflexivity |].
    split; [exact Hl | apply stamped_items].
  - intros Hfresh Hout.
    rewrite (insert_item_fresh b l now Hitems index item Hfresh).
    rewrite (py_insert_overflow l index item Hout). reflexivity.
Qed.

Lemma insert_item_keeps_order_witness :
  items_are sample_bundle ["d1"; "d2"]
  /\ BundleManifest.insert_item sample_bundle 0 "d2" sample_clock = Raise AlreadyExists
  /\ (exists b' l1 l2,
        BundleManifest.insert_item sample_bundle (-1) "d3" sample_clock = Ok b'
        /\ ["d1"; "d2"] = l1 ++ l2
        /\ items_are b' (l1 ++ "d3" :: l2))
  /\ BundleManifest.insert_item sample_bundle (- 2 ^ 63 - 1) "d3" sample_clock
     = Raise OverflowError.
Proof.
  assert (Hitems : items_are sample_bundle ["d1"; "d2"]) by reflexivity.
  split; [exact Hitems |]. split; [| split].
  - apply (insert_item_keeps_order sample_bundle ["d1"; "d2"] 0 "d2" sample_clock Hitems).
    compute_done.
  - apply (proj1 (proj2 (insert_item_keeps_order sample_bundle ["d1"; "d2"] (-1) "d3"
                           sample_clock Hitems)));
      compute_done.
  - apply (proj2 (proj2 (insert_item_keeps_order sample_bundle ["d1"; "d2"]
                           (- 2 ^ 63 - 1) "d3" sample_clock Hitems)));
      compute_done.
Defined.

(** ** Components of a bundle *)

(** X21.  For every manifest and every name but ["updated"]:
    [get_component] after [set_component] returns the value set, and no
    key but that name and ["updated"] has changed; [remove_component]
    then succeeds, after which [get_component] returns its default and
    [remove_component] raises [DoesNotExist].  Under the name
    ["updated"], [set_component] keeps the reading of the clock, not the
    value. *)
Theorem component_round_trip (b : bundle_manifest) (name : string) (v : value)
    (now : clock) :
  (name <> "updated" ->
   let b1 := BundleManifest.set_component b name v now in
   (forall default, BundleManifest.get_component b1 name default = v)
   /\ (forall k, k <> name -> k <> "updated" -> b1 !! k = b !! k)
   /\ exists b2,
        BundleManifest.remove_component b1 name = Ok b2
        /\ (forall default, BundleManifest.get_component b2 name default = default)
        /\ BundleManifest.remove_component b2 name = Raise DoesNotExist)
  /\ (forall default,
        BundleManifest.get_component
          (BundleManifest.set_component b "updated" v now) "updated" default
        = VStr (now 0%nat)).
Proof.
  split.
  - intros Hname b1.
    assert (Hset : b1 !! name = Some v).
    { unfold b1, BundleManifest.set_component.
      rewrite lookup_insert_ne by congruence. apply lookup_insert_eq. }
    split; [| split].
    + intros default. unfold BundleManifest.get_component. rewrite Hset. reflexivity.
    + intros k Hk1 Hk2. unfold b1, BundleManifest.set_component.
      rewrite !lookup_insert_ne by congruence. reflexivity.
    + exists (delete name b1). split; [| split].
      * unfold BundleManifest.remove_component. rewrite Hset. reflexivity.
      * intros default. unfold BundleManifest.get_component.
        rewrite lookup_delete_eq. reflexivity.
      * unfold BundleManifest.remove_component. rewrite lookup_delete_eq. reflexivity.
  - intros default. unfold BundleManifest.get_component, BundleManifest.set_component.
    rewrite lookup_insert_eq. reflexivity.
Qed.

Lemma component_round_trip_witness :
  BundleManifest.get_component
    (BundleManifest.set_component sample_bundle "provisional" (VStr "b2") sample_clock)
    "provisional" (VStr "")
  = VStr "b2".
Proof.
  apply (proj1 (component_round_trip sample_bundle "provisional" (VStr "b2")
                  sample_clock)).
  discriminate.
Defined.

(** ** An asset bound again to its URI *)

(** X22.  On a document whose latest version has the asset [a], whose
    timeline ends in the URI [u], or is empty when [u] is the empty
    string, [new_asset_version] of [a] with [u] raises
    [VersionAlreadySet] and leaves the document as it was. *)
Theorem new_asset_version_same_uri (self : Document.t)
    (v : DocumentManifest.document_version) (a u : string)
    (uris : list (string * string)) (now : clock) :
  last (DocumentManifest.versions (Document._manifest self)) = Some v ->
  DocumentManifest.assets v !! a = Some uris ->
  Document._latest uris = u ->
  Document.new_asset_version self a u now = (Raise VersionAlreadySet, self).
Proof.
  intros Hlast Ha Hsame. unfold Document.new_asset_version.
  rewrite (latest_assets_latest self v Hlast). simpl.
  rewrite lookup_fmap, Ha. simpl. rewrite Hsame.
  rewrite bool_decide_eq_true_2 by reflexivity. reflexivity.
Qed.

Lemma new_asset_version_same_uri_witness :
  Document.new_asset_version sample_document "fig1" "http://x/fig1.png" sample_clock
  = (Raise VersionAlreadySet, sample_document).
Proof.
  apply (new_asset_version_same_uri sample_document sample_version "fig1"
           "http://x/fig1.png"
           [("2020-05-01T10:00:00.000000Z", "http://x/fig1.png")] sample_clock);
    reflexivity.
Defined.

(** ** A query at a late time *)

Section late_query.

Context {A : Type} (key : A -> string).





End late_query.

Section late_query_of_a_document.

Import DocumentManifest.


End late_query_of_a_document.

